(** * eduprompt: prompt templates, generated prompts, favorites and jobs

    A shallow embedding of [db/tables.ts] (the four tables) and of
    [src/actions/index.ts] (the ten actions and their two helpers), followed
    by the properties of the access-control and CRUD contract.

    The storage backend is a relational database queried through the
    [astro:db] query builder.  Tables are lists of rows in storage order;
    [where] clauses are evaluated with SQL's three-valued logic; handlers are
    computations in a state-and-exception monad over the database, so that a
    write made before a [throw] would remain visible. *)

From Stdlib Require Import ZArith List String Bool Lia.
Import ListNotations.

Local Open Scope string_scope.
Local Open Scope list_scope.
Local Open Scope Z_scope.

(** ** Values *)

(** Timestamps ([Date]) as milliseconds since the epoch. *)
Definition Date := Z.

(** Opaque structured payloads ([column.json], [z.record(z.any())]). *)
#[local] Set Warnings "-register-all".
Inductive Json : Type :=
| JNull
| JBool (b : bool)
| JNum (n : Z)
| JStr (s : string)
| JArr (xs : list Json)
| JObj (fields : list (string * Json)).

Definition JsonRecord := list (string * Json).

(** The [status] enum of [PromptJobs]. *)
Inductive JobStatus : Type := pending | completed | failed.

(** ** Schema: [db/tables.ts]

    An [optional: true] column is nullable and is an [option]; every other
    column is NOT NULL. *)

Module PromptTemplates.
Record row : Type := {
  id : Z;
  ownerId : option string;
  title : string;
  description : option string;
  template : string;
  tags : option string;
  isActive : bool;
  createdAt : Date;
  updatedAt : Date
}.
End PromptTemplates.

Module GeneratedPrompts.
Record row : Type := {
  id : Z;
  templateId : option Z;
  userId : option string;
  input : option JsonRecord;
  promptText : string;
  meta : option JsonRecord;
  createdAt : Date
}.
End GeneratedPrompts.

Module UserPromptFavorites.
Record row : Type := {
  id : Z;
  userId : string;
  promptId : Z;
  createdAt : Date
}.
End UserPromptFavorites.

Module PromptJobs.
Record row : Type := {
  id : Z;
  userId : option string;
  templateId : option Z;
  input : option JsonRecord;
  output : option JsonRecord;
  status : JobStatus;
  createdAt : Date
}.
End PromptJobs.

(** A table: its rows in storage order and the key handed out last
    ([autoIncrement: true]). *)
Record table (R : Type) : Type := {
  rows : list R;
  seq : Z
}.
Arguments rows {R} _.
Arguments seq {R} _.

Record DB : Type := {
  templates : table PromptTemplates.row;
  prompts : table GeneratedPrompts.row;
  favorites : table UserPromptFavorites.row;
  jobs : table PromptJobs.row
}.

Definition empty_table {R : Type} : table R := {| rows := []; seq := 0 |}.

Definition empty_db : DB :=
  {| templates := empty_table; prompts := empty_table;
     favorites := empty_table; jobs := empty_table |}.

(** ** Query conditions: [eq], [and], [or] of [astro:db]

    The builder emits SQL, [eq(c, v)] as [c = v], and SQL comparisons are
    three-valued: comparing with NULL is neither true nor false, also when
    both sides are NULL.  A [where] clause keeps the rows whose condition is
    true. *)

Inductive sql_bool : Type := SqlTrue | SqlFalse | SqlNull.

Definition sql_of_bool (b : bool) : sql_bool :=
  if b then SqlTrue else SqlFalse.

Definition sql_is_true (t : sql_bool) : bool :=
  match t with SqlTrue => true | _ => false end.

Definition sql_conj (a b : sql_bool) : sql_bool :=
  match a, b with
  | SqlFalse, _ | _, SqlFalse => SqlFalse
  | SqlTrue, SqlTrue => SqlTrue
  | _, _ => SqlNull
  end.

Definition sql_disj (a b : sql_bool) : sql_bool :=
  match a, b with
  | SqlTrue, _ | _, SqlTrue => SqlTrue
  | SqlFalse, SqlFalse => SqlFalse
  | _, _ => SqlNull
  end.

Section Conditions.
Context {R : Type}.

Definition cond := R -> sql_bool.

(** [eq(column, value)]: [None] is NULL on either side. *)
Definition sql_eq {A : Type} (eqb : A -> A -> bool)
    (column : R -> option A) (value : option A) : cond :=
  fun r =>
    match column r, value with
    | Some a, Some b => sql_of_bool (eqb a b)
    | _, _ => SqlNull
    end.

(** [and(...conditions)] *)
Definition sql_and (cs : list cond) : cond :=
  fun r => fold_right (fun c acc => sql_conj (c r) acc) SqlTrue cs.

(** [or(...conditions)] *)
Definition sql_or (cs : list cond) : cond :=
  fun r => fold_right (fun c acc => sql_disj (c r) acc) SqlFalse cs.

Definition matches (c : cond) (r : R) : bool := sql_is_true (c r).

(** [select().from(T).where(c)] *)
Definition select_where (c : cond) (t : table R) : list R :=
  filter (matches c) (rows t).

(** [delete(T).where(c)]: the remaining table and [rowsAffected]. *)
Definition delete_where (c : cond) (t : table R) : table R * Z :=
  ({| rows := filter (fun r => negb (matches c r)) (rows t); seq := seq t |},
   Z.of_nat (List.length (filter (matches c) (rows t)))).

(** [update(T).set(patch).where(c).returning()]: the table after the
    update and the rows it changed, as they are afterwards. *)
Definition update_where (patch : R -> R) (c : cond) (t : table R)
    : table R * list R :=
  ({| rows := map (fun r => if matches c r then patch r else r) (rows t);
      seq := seq t |},
   map patch (filter (matches c) (rows t))).

(** The key an [autoIncrement] primary key gives the next row: one more
    than the largest key in the table, and 1 in an empty table; the key of
    a deleted last row is given again. *)
Definition next_id (key : R -> Z) (t : table R) : Z :=
  match rows t with
  | [] => 1
  | r :: l => fold_right (fun x acc => Z.max (key x) acc) (key r) l + 1
  end.

(** [insert(T).values(v).returning()]: [mk] builds the row from its new
    key. *)
Definition insert_row (key : R -> Z) (mk : Z -> R) (t : table R)
    : table R * list R :=
  let k := next_id key t in
  ({| rows := rows t ++ [mk k]; seq := k |}, [mk k]).
End Conditions.
Arguments cond R : clear implicits.

(** ** Errors and the handler monad *)

Inductive ErrorCode : Type := UNAUTHORIZED | NOT_FOUND | FORBIDDEN | BAD_REQUEST.

(** [ActionError] is what the handlers throw; [ActionInputError] is what the
    framework throws when the input does not parse against the action's
    schema (the specification's ValidationError). *)
Inductive Error : Type :=
| ActionError (code : ErrorCode) (message : string)
| ActionInputError.

Definition code_of (e : Error) : ErrorCode :=
  match e with
  | ActionError c _ => c
  | ActionInputError => BAD_REQUEST
  end.

Definition Action (A : Type) : Type := DB -> (Error + A) * DB.

Definition ret {A : Type} (a : A) : Action A := fun db => (inr a, db).

Definition throw {A : Type} (e : Error) : Action A := fun db => (inl e, db).

Definition bind {A B : Type} (m : Action A) (k : A -> Action B) : Action B :=
  fun db =>
    match m db with
    | (inl e, db') => (inl e, db')
    | (inr a, db') => k a db'
    end.

Definition gets {A : Type} (f : DB -> A) : Action A := fun db => (inr (f db), db).

(** A statement that changes the database and yields a value. *)
Definition statement {A : Type} (f : DB -> DB * A) : Action A :=
  fun db => let '(db', a) := f db in (inr a, db').

Declare Scope action_scope.
Delimit Scope action_scope with action.
Notation "x <- m ;; k" := (bind m (fun x => k))
  (at level 61, m at next level, right associativity) : action_scope.
Notation "m ;;; k" := (bind m (fun _ => k))
  (at level 61, right associativity) : action_scope.
Local Open Scope action_scope.

(** The final database and the outcome of running a handler. *)
Definition outcome {A : Type} (m : Action A) (db : DB) : Error + A := fst (m db).
Definition final {A : Type} (m : Action A) (db : DB) : DB := snd (m db).

(** ** Statements on the four tables *)

Definition set_templates (t : table PromptTemplates.row) (db : DB) : DB :=
  {| templates := t; prompts := prompts db;
     favorites := favorites db; jobs := jobs db |}.

Definition set_prompts (t : table GeneratedPrompts.row) (db : DB) : DB :=
  {| templates := templates db; prompts := t;
     favorites := favorites db; jobs := jobs db |}.

Definition set_favorites (t : table UserPromptFavorites.row) (db : DB) : DB :=
  {| templates := templates db; prompts := prompts db;
     favorites := t; jobs := jobs db |}.

Definition set_jobs (t : table PromptJobs.row) (db : DB) : DB :=
  {| templates := templates db; prompts := prompts db;
     favorites := favorites db; jobs := t |}.

Section Statements.
Context {R : Type}.
Variable get : DB -> table R.
Variable set : table R -> DB -> DB.

Definition db_select (c : cond R) : Action (list R) :=
  gets (fun db => select_where c (get db)).

Definition db_insert (key : R -> Z) (mk : Z -> R) : Action (list R) :=
  statement (fun db =>
    let '(t, returning) := insert_row key mk (get db) in (set t db, returning)).

Definition db_update (patch : R -> R) (c : cond R) : Action (list R) :=
  statement (fun db =>
    let '(t, returning) := update_where patch c (get db) in (set t db, returning)).

Definition db_delete (c : cond R) : Action Z :=
  statement (fun db =>
    let '(t, rowsAffected) := delete_where c (get db) in (set t db, rowsAffected)).
End Statements.

(** A NOT NULL column seen as a nullable one. *)
Definition col {R A : Type} (f : R -> A) : R -> option A := fun r => Some (f r).

(** ** Request context and response envelopes *)

Module App.
Record User : Type := { id : string }.
Record Locals : Type := { user : option User }.
End App.

Record ActionAPIContext : Type := { locals : option App.Locals }.

(** [{ success, data }] *)
Record Envelope (D : Type) : Type := { success : bool; data : D }.
Arguments success {D} _.
Arguments data {D} _.

(** [{ items, total }] *)
Record Listing (R : Type) : Type := { items : list R; total : Z }.
Arguments items {R} _.
Arguments total {R} _.

Definition listing {R : Type} (l : list R) : Listing R :=
  {| items := l; total := Z.of_nat (List.length l) |}.

(** ** JavaScript operators the handlers rely on *)

(** Truthiness of a [string | null]: null and the empty string are falsy. *)
Definition truthy (s : option string) : bool :=
  match s with
  | Some s => negb (s =? "")%string
  | None => false
  end.

(** [a !== b] for [a : string | null] and [b : string]. *)
Definition strict_neq (a : option string) (b : string) : bool :=
  match a with
  | Some a => negb (a =? b)%string
  | None => true
  end.

(** [a ?? b] *)
Definition nullish {A : Type} (a : option A) (b : A) : A :=
  match a with Some a => a | None => b end.

(** ** Input schemas ([astro:schema])

    A raw input is the object the client sent, each key present or absent;
    numbers are the integers, so [z.number().int()] accepts every number the
    raw records can hold. *)

(** [z.string().min(1)] *)
Definition z_string_min1 (s : option string) : option string :=
  match s with
  | Some s => if (1 <=? String.length s)%nat then Some s else None
  | None => None
  end.

(** [z.string().min(1).optional()]: the outer [option] is the parse result. *)
Definition z_string_min1_optional (s : option string) : option (option string) :=
  match s with
  | Some s => if (1 <=? String.length s)%nat then Some (Some s) else None
  | None => Some None
  end.

(** [z.enum(["pending", "completed", "failed"]).optional()] *)
Definition z_status_optional (s : option string) : option (option JobStatus) :=
  match s with
  | None => Some None
  | Some s =>
      if (s =? "pending")%string then Some (Some pending)
      else if (s =? "completed")%string then Some (Some completed)
      else if (s =? "failed")%string then Some (Some failed)
      else None
  end.

(** [defineAction({ input, handler })]: the input is parsed against the
    schema before the handler runs; [now] is what [new Date()] gives during
    the call. *)
Definition defineAction {Raw I O : Type}
    (schema : Raw -> option I)
    (handler : I -> ActionAPIContext -> Date -> Action O)
    : Raw -> ActionAPIContext -> Date -> Action O :=
  fun raw context now =>
    match schema raw with
    | None => throw ActionInputError
    | Some input => handler input context now
    end.

(** ** Helpers of [src/actions/index.ts] *)

Definition requireUser (context : ActionAPIContext) : Action App.User :=
  let user :=
    match locals context with
    | Some l => App.user l
    | None => None
    end in
  match user with
  | None =>
      throw (ActionError UNAUTHORIZED "You must be signed in to perform this action.")
  | Some user => ret user
  end.

Definition ensureTemplateAccessible (templateId : Z) (userId : string)
    : Action PromptTemplates.row :=
  found <- db_select templates
             (sql_eq Z.eqb (col PromptTemplates.id) (Some templateId)) ;;
  match hd_error found with
  | None => throw (ActionError NOT_FOUND "Template not found.")
  | Some template =>
      if truthy (PromptTemplates.ownerId template)
         && strict_neq (PromptTemplates.ownerId template) userId
      then throw (ActionError FORBIDDEN "You do not have access to this template.")
      else ret template
  end.

(** ** The actions: [export const server = { ... }] *)

Module CreatePromptTemplate.
Record raw : Type := {
  raw_title : option string;
  raw_description : option string;
  raw_template : option string;
  raw_tags : option string;
  raw_isActive : option bool
}.

Record input : Type := {
  title : string;
  description : option string;
  template : string;
  tags : option string;
  isActive : option bool
}.

Definition schema (r : raw) : option input :=
  match z_string_min1 (raw_title r), z_string_min1 (raw_template r) with
  | Some t, Some b =>
      Some {| title := t; description := raw_description r; template := b;
              tags := raw_tags r; isActive := raw_isActive r |}
  | _, _ => None
  end.

Definition handler (input : input) (context : ActionAPIContext) (now : Date)
    : Action (Envelope (option PromptTemplates.row)) :=
  user <- requireUser context ;;
  returning <- db_insert templates set_templates PromptTemplates.id
    (fun k =>
       {| PromptTemplates.id := k;
          PromptTemplates.ownerId := Some (App.id user);
          PromptTemplates.title := title input;
          PromptTemplates.description := description input;
          PromptTemplates.template := template input;
          PromptTemplates.tags := tags input;
          PromptTemplates.isActive := nullish (isActive input) true;
          PromptTemplates.createdAt := now;
          PromptTemplates.updatedAt := now |}) ;;
  ret {| success := true; data := hd_error returning |}.
End CreatePromptTemplate.

Definition createPromptTemplate :=
  defineAction CreatePromptTemplate.schema CreatePromptTemplate.handler.

Module UpdatePromptTemplate.
Record raw : Type := {
  raw_id : option Z;
  raw_title : option string;
  raw_description : option string;
  raw_template : option string;
  raw_tags : option string;
  raw_isActive : option bool
}.

Record input : Type := {
  id : Z;
  title : option string;
  description : option string;
  template : option string;
  tags : option string;
  isActive : option bool
}.

Definition defined {A : Type} (a : option A) : bool :=
  match a with Some _ => true | None => false end.

(** The [refine] rule of the schema. *)
Definition refinement (i : input) : bool :=
  defined (title i) || defined (description i) || defined (template i)
  || defined (tags i) || defined (isActive i).

Definition schema (r : raw) : option input :=
  match raw_id r, z_string_min1_optional (raw_title r) with
  | Some n, Some t =>
      let i := {| id := n; title := t; description := raw_description r;
                  template := raw_template r; tags := raw_tags r;
                  isActive := raw_isActive r |} in
      if refinement i then Some i else None
  | _, _ => None
  end.

(** The object given to [set]: the supplied fields and [updatedAt]. *)
Definition set (i : input) (now : Date) (r : PromptTemplates.row)
    : PromptTemplates.row :=
  {| PromptTemplates.id := PromptTemplates.id r;
     PromptTemplates.ownerId := PromptTemplates.ownerId r;
     PromptTemplates.title := nullish (title i) (PromptTemplates.title r);
     PromptTemplates.description :=
       match description i with
       | Some d => Some d
       | None => PromptTemplates.description r
       end;
     PromptTemplates.template := nullish (template i) (PromptTemplates.template r);
     PromptTemplates.tags :=
       match tags i with
       | Some t => Some t
       | None => PromptTemplates.tags r
       end;
     PromptTemplates.isActive := nullish (isActive i) (PromptTemplates.isActive r);
     PromptTemplates.createdAt := PromptTemplates.createdAt r;
     PromptTemplates.updatedAt := now |}.

Definition handler (input : input) (context : ActionAPIContext) (now : Date)
    : Action (Envelope (option PromptTemplates.row)) :=
  user <- requireUser context ;;
  ensureTemplateAccessible (id input) (App.id user) ;;;
  returning <- db_update templates set_templates (set input now)
    (sql_eq Z.eqb (col PromptTemplates.id) (Some (id input))) ;;
  ret {| success := true; data := hd_error returning |}.
End UpdatePromptTemplate.

Definition updatePromptTemplate :=
  defineAction UpdatePromptTemplate.schema UpdatePromptTemplate.handler.

Module ListPromptTemplates.
Record raw_object : Type := { raw_includeInactive : option bool }.
Definition raw := option raw_object.

Record object : Type := { includeInactive : bool }.
Definition input := option object.

(** [z.object({ includeInactive: z.boolean().default(false) }).optional()] *)
Definition schema (r : raw) : option input :=
  Some (option_map
          (fun o => {| includeInactive := nullish (raw_includeInactive o) false |})
          r).

Definition visibilityFilter (user : App.User) : cond PromptTemplates.row :=
  sql_or [ sql_eq String.eqb PromptTemplates.ownerId (Some (App.id user));
           sql_eq String.eqb PromptTemplates.ownerId None ].

Definition handler (input : input) (context : ActionAPIContext) (now : Date)
    : Action (Envelope (Listing PromptTemplates.row)) :=
  user <- requireUser context ;;
  let includeInactive := nullish (option_map includeInactive input) false in
  templates <- db_select templates
    (if includeInactive
     then visibilityFilter user
     else sql_and [ visibilityFilter user;
                    sql_eq Bool.eqb (col PromptTemplates.isActive) (Some true) ]) ;;
  ret {| success := true; data := listing templates |}.
End ListPromptTemplates.

Definition listPromptTemplates :=
  defineAction ListPromptTemplates.schema ListPromptTemplates.handler.

Module CreateGeneratedPrompt.
Record raw : Type := {
  raw_templateId : option Z;
  raw_input : option JsonRecord;
  raw_promptText : option string;
  raw_meta : option JsonRecord
}.

Record input : Type := {
  templateId : option Z;
  input_ : option JsonRecord;
  promptText : string;
  meta : option JsonRecord
}.

Definition schema (r : raw) : option input :=
  match z_string_min1 (raw_promptText r) with
  | Some p =>
      Some {| templateId := raw_templateId r; input_ := raw_input r;
              promptText := p; meta := raw_meta r |}
  | None => None
  end.

Definition handler (input : input) (context : ActionAPIContext) (now : Date)
    : Action (Envelope (option GeneratedPrompts.row)) :=
  user <- requireUser context ;;
  match templateId input with
  | Some templateId => ensureTemplateAccessible templateId (App.id user) ;;; ret tt
  | None => ret tt
  end ;;;
  returning <- db_insert prompts set_prompts GeneratedPrompts.id
    (fun k =>
       {| GeneratedPrompts.id := k;
          GeneratedPrompts.templateId := templateId input;
          GeneratedPrompts.userId := Some (App.id user);
          GeneratedPrompts.input := input_ input;
          GeneratedPrompts.promptText := promptText input;
          GeneratedPrompts.meta := meta input;
          GeneratedPrompts.createdAt := now |}) ;;
  ret {| success := true; data := hd_error returning |}.
End CreateGeneratedPrompt.

Definition createGeneratedPrompt :=
  defineAction CreateGeneratedPrompt.schema CreateGeneratedPrompt.handler.

Module ListGeneratedPrompts.
Record object : Type := { templateId : option Z }.
Definition raw := option object.
Definition input := option object.

Definition schema (r : raw) : option input := Some r.

(** [input?.templateId] *)
Definition templateId_of (i : input) : option Z :=
  match i with Some o => templateId o | None => None end.

Definition handler (input : input) (context : ActionAPIContext) (now : Date)
    : Action (Envelope (Listing GeneratedPrompts.row)) :=
  user <- requireUser context ;;
  let filters := [ sql_eq String.eqb GeneratedPrompts.userId (Some (App.id user)) ] in
  let filters :=
    match templateId_of input with
    | Some templateId =>
        filters ++ [ sql_eq Z.eqb GeneratedPrompts.templateId (Some templateId) ]
    | None => filters
    end in
  prompts <- db_select prompts (sql_and filters) ;;
  ret {| success := true; data := listing prompts |}.
End ListGeneratedPrompts.

Definition listGeneratedPrompts :=
  defineAction ListGeneratedPrompts.schema ListGeneratedPrompts.handler.

(** The [where] clause both favorite actions use: this prompt, this user. *)
Definition favorite_of (promptId : Z) (userId : string)
    : cond UserPromptFavorites.row :=
  sql_and [ sql_eq Z.eqb (col UserPromptFavorites.promptId) (Some promptId);
            sql_eq String.eqb (col UserPromptFavorites.userId) (Some userId) ].

Module AddFavoritePrompt.
Record raw : Type := { raw_promptId : option Z }.
Record input : Type := { promptId : Z }.

Definition schema (r : raw) : option input :=
  option_map (fun n => {| promptId := n |}) (raw_promptId r).

Definition handler (input : input) (context : ActionAPIContext) (now : Date)
    : Action (Envelope (option UserPromptFavorites.row)) :=
  user <- requireUser context ;;
  found <- db_select prompts
    (sql_and [ sql_eq Z.eqb (col GeneratedPrompts.id) (Some (promptId input));
               sql_eq String.eqb GeneratedPrompts.userId (Some (App.id user)) ]) ;;
  match hd_error found with
  | None => throw (ActionError NOT_FOUND "Prompt not found.")
  | Some prompt =>
      existing <- db_select favorites
                    (favorite_of (promptId input) (App.id user)) ;;
      match hd_error existing with
      | Some existingFavorite =>
          ret {| success := true; data := Some existingFavorite |}
      | None =>
          returning <- db_insert favorites set_favorites UserPromptFavorites.id
            (fun k =>
               {| UserPromptFavorites.id := k;
                  UserPromptFavorites.userId := App.id user;
                  UserPromptFavorites.promptId := promptId input;
                  UserPromptFavorites.createdAt := now |}) ;;
          ret {| success := true; data := hd_error returning |}
      end
  end.
End AddFavoritePrompt.

Definition addFavoritePrompt :=
  defineAction AddFavoritePrompt.schema AddFavoritePrompt.handler.

Module RemoveFavoritePrompt.
Record raw : Type := { raw_promptId : option Z }.
Record input : Type := { promptId : Z }.

Definition schema (r : raw) : option input :=
  option_map (fun n => {| promptId := n |}) (raw_promptId r).

(** [{ success: true }] *)
Record Ack : Type := { ack_success : bool }.

Definition handler (input : input) (context : ActionAPIContext) (now : Date)
    : Action Ack :=
  user <- requireUser context ;;
  rowsAffected <- db_delete favorites set_favorites
                    (favorite_of (promptId input) (App.id user)) ;;
  if rowsAffected =? 0
  then throw (ActionError NOT_FOUND "Favorite not found.")
  else ret {| ack_success := true |}.
End RemoveFavoritePrompt.

Definition removeFavoritePrompt :=
  defineAction RemoveFavoritePrompt.schema RemoveFavoritePrompt.handler.

Module ListFavoritePrompts.
(** [z.object({}).optional()] *)
Definition raw := option unit.
Definition input := option unit.
Definition schema (r : raw) : option input := Some r.

Definition handler (_input : input) (context : ActionAPIContext) (now : Date)
    : Action (Envelope (Listing UserPromptFavorites.row)) :=
  user <- requireUser context ;;
  favorites <- db_select favorites
    (sql_eq String.eqb (col UserPromptFavorites.userId) (Some (App.id user))) ;;
  ret {| success := true; data := listing favorites |}.
End ListFavoritePrompts.

Definition listFavoritePrompts :=
  defineAction ListFavoritePrompts.schema ListFavoritePrompts.handler.

Module CreatePromptJob.
Record raw : Type := {
  raw_templateId : option Z;
  raw_input : option JsonRecord;
  raw_output : option JsonRecord;
  raw_status : option string
}.

Record input : Type := {
  templateId : option Z;
  input_ : option JsonRecord;
  output : option JsonRecord;
  status : option JobStatus
}.

Definition schema (r : raw) : option input :=
  match z_status_optional (raw_status r) with
  | Some s =>
      Some {| templateId := raw_templateId r; input_ := raw_input r;
              output := raw_output r; status := s |}
  | None => None
  end.

Definition handler (input : input) (context : ActionAPIContext) (now : Date)
    : Action (Envelope (option PromptJobs.row)) :=
  user <- requireUser context ;;
  match templateId input with
  | Some templateId => ensureTemplateAccessible templateId (App.id user) ;;; ret tt
  | None => ret tt
  end ;;;
  returning <- db_insert jobs set_jobs PromptJobs.id
    (fun k =>
       {| PromptJobs.id := k;
          PromptJobs.userId := Some (App.id user);
          PromptJobs.templateId := templateId input;
          PromptJobs.input := input_ input;
          PromptJobs.output := output input;
          PromptJobs.status := nullish (status input) completed;
          PromptJobs.createdAt := now |}) ;;
  ret {| success := true; data := hd_error returning |}.
End CreatePromptJob.

Definition createPromptJob :=
  defineAction CreatePromptJob.schema CreatePromptJob.handler.

Module ListPromptJobs.
Definition raw := option unit.
Definition input := option unit.
Definition schema (r : raw) : option input := Some r.

Definition handler (_input : input) (context : ActionAPIContext) (now : Date)
    : Action (Envelope (Listing PromptJobs.row)) :=
  user <- requireUser context ;;
  jobs <- db_select jobs
    (sql_eq String.eqb PromptJobs.userId (Some (App.id user))) ;;
  ret {| success := true; data := listing jobs |}.
End ListPromptJobs.

Definition listPromptJobs :=
  defineAction ListPromptJobs.schema ListPromptJobs.handler.

(** ** Runs of the API

    One request: which action, with which raw input. *)
Inductive Request : Type :=
| CreatePromptTemplateReq (r : CreatePromptTemplate.raw)
| UpdatePromptTemplateReq (r : UpdatePromptTemplate.raw)
| ListPromptTemplatesReq (r : ListPromptTemplates.raw)
| CreateGeneratedPromptReq (r : CreateGeneratedPrompt.raw)
| ListGeneratedPromptsReq (r : ListGeneratedPrompts.raw)
| AddFavoritePromptReq (r : AddFavoritePrompt.raw)
| RemoveFavoritePromptReq (r : RemoveFavoritePrompt.raw)
| ListFavoritePromptsReq (r : ListFavoritePrompts.raw)
| CreatePromptJobReq (r : CreatePromptJob.raw)
| ListPromptJobsReq (r : ListPromptJobs.raw).

(** The database after serving a request. *)
Definition serve (q : Request) (context : ActionAPIContext) (now : Date)
    (db : DB) : DB :=
  match q with
  | CreatePromptTemplateReq r => final (createPromptTemplate r context now) db
  | UpdatePromptTemplateReq r => final (updatePromptTemplate r context now) db
  | ListPromptTemplatesReq r => final (listPromptTemplates r context now) db
  | CreateGeneratedPromptReq r => final (createGeneratedPrompt r context now) db
  | ListGeneratedPromptsReq r => final (listGeneratedPrompts r context now) db
  | AddFavoritePromptReq r => final (addFavoritePrompt r context now) db
  | RemoveFavoritePromptReq r => final (removeFavoritePrompt r context now) db
  | ListFavoritePromptsReq r => final (listFavoritePrompts r context now) db
  | CreatePromptJobReq r => final (createPromptJob r context now) db
  | ListPromptJobsReq r => final (listPromptJobs r context now) db
  end.

(** The databases the API produces from the empty one, one request at a
    time. *)
Inductive reachable : DB -> Prop :=
| reachable_empty : reachable empty_db
| reachable_serve q context now db :
    reachable db -> reachable (serve q context now db).

(** A signed-in caller. *)
Definition signed_in (userId : string) : ActionAPIContext :=
  {| locals := Some {| App.user := Some {| App.id := userId |} |} |}.

(** * Properties *)

(** ** Conditions as boolean filters *)

Section ConditionFacts.
Context {R : Type}.
Implicit Types (c d : cond R) (r : R).

Lemma matches_and2 c d r :
  matches (sql_and [c; d]) r = matches c r && matches d r.
Proof.
  unfold matches, sql_and; simpl.
  destruct (c r), (d r); reflexivity.
Qed.

Lemma matches_and1 c r : matches (sql_and [c]) r = matches c r.
Proof.
  unfold matches, sql_and; simpl. destruct (c r); reflexivity.
Qed.

Lemma matches_or2 c d r :
  matches (sql_or [c; d]) r = matches c r || matches d r.
Proof.
  unfold matches, sql_or; simpl.
  destruct (c r), (d r); reflexivity.
Qed.

Lemma matches_eq_col {A : Type} (eqb : A -> A -> bool) (f : R -> A) (v : A) r :
  matches (sql_eq eqb (col f) (Some v)) r = eqb (f r) v.
Proof.
  unfold matches, sql_eq, col. destruct (eqb (f r) v); reflexivity.
Qed.

Lemma matches_eq_nullable {A : Type} (eqb : A -> A -> bool)
    (f : R -> option A) (v : A) r :
  matches (sql_eq eqb f (Some v)) r
  = match f r with Some a => eqb a v | None => false end.
Proof.
  unfold matches, sql_eq. destruct (f r) as [a|]; [|reflexivity].
  destruct (eqb a v); reflexivity.
Qed.

(** Comparing a column with NULL selects nothing. *)
Lemma matches_eq_null {A : Type} (eqb : A -> A -> bool) (f : R -> option A) r :
  matches (sql_eq eqb f None) r = false.
Proof.
  unfold matches, sql_eq. destruct (f r); reflexivity.
Qed.
End ConditionFacts.

Lemma filter_ext_eq {A : Type} (f g : A -> bool) (l : list A) :
  (forall a, f a = g a) -> filter f l = filter g l.
Proof.
  intros E. induction l as [|a l IH]; simpl; [reflexivity|].
  rewrite E, IH. reflexivity.
Qed.

(** ** Running handlers *)


Ltac run :=
  unfold outcome, final, defineAction, bind, ret, throw, gets, statement,
    db_select, db_insert, db_update, db_delete; simpl.

(** ** The accessibility check *)

(** The row [ensureTemplateAccessible] looks at: the first one with the key. *)
Definition template_with_id (templateId : Z) (db : DB) : option PromptTemplates.row :=
  find (fun r => PromptTemplates.id r =? templateId) (rows (templates db)).

Lemma hd_error_filter {A : Type} (f : A -> bool) (l : list A) :
  hd_error (filter f l) = find f l.
Proof.
  induction l as [|a l IH]; simpl; [reflexivity|].
  destruct (f a); simpl; auto.
Qed.

Lemma select_template_by_id templateId db :
  hd_error (select_where (sql_eq Z.eqb (col PromptTemplates.id) (Some templateId))
              (templates db))
  = template_with_id templateId db.
Proof.
  unfold select_where, template_with_id.
  rewrite (filter_ext_eq _ (fun r => PromptTemplates.id r =? templateId)).
  - apply hd_error_filter.
  - intros r. apply matches_eq_col.
Qed.

Definition not_found_template : Error :=
  ActionError NOT_FOUND "Template not found.".

Definition forbidden_template : Error :=
  ActionError FORBIDDEN "You do not have access to this template.".

(** The check, case by case on the row it finds. *)
Lemma ensureTemplateAccessible_cases templateId userId db :
  ensureTemplateAccessible templateId userId db
  = match template_with_id templateId db with
    | None => (inl not_found_template, db)
    | Some r =>
        if truthy (PromptTemplates.ownerId r)
           && strict_neq (PromptTemplates.ownerId r) userId
        then (inl forbidden_template, db)
        else (inr r, db)
    end.
Proof.
  unfold ensureTemplateAccessible. run.
  rewrite select_template_by_id.
  destruct (template_with_id templateId db) as [r|]; [|reflexivity].
  destruct (truthy _ && strict_neq _ _); reflexivity.
Qed.

(** The check only reads. *)
Lemma ensureTemplateAccessible_reads templateId userId db :
  final (ensureTemplateAccessible templateId userId) db = db.
Proof.
  unfold final. rewrite ensureTemplateAccessible_cases.
  destruct (template_with_id templateId db) as [r|]; [|reflexivity].
  destruct (truthy _ && strict_neq _ _); reflexivity.
Qed.

Lemma ensureTemplateAccessible_fails templateId userId db e :
  outcome (ensureTemplateAccessible templateId userId) db = inl e ->
  ensureTemplateAccessible templateId userId db = (inl e, db).
Proof.
  intros H. pose proof (ensureTemplateAccessible_reads templateId userId db) as F.
  unfold outcome in H. unfold final in F.
  destruct (ensureTemplateAccessible templateId userId db) as [o d]; simpl in *.
  congruence.
Qed.

(** The owner of the row is somebody, and somebody else than the caller:
    a non-null, non-empty [ownerId] different from [userId]. *)
Definition owned_by_other (r : PromptTemplates.row) (userId : string) : Prop :=
  exists o, PromptTemplates.ownerId r = Some o /\ o <> "" /\ o <> userId.

Lemma owned_by_other_iff r userId :
  owned_by_other r userId
  <-> truthy (PromptTemplates.ownerId r)
      && strict_neq (PromptTemplates.ownerId r) userId = true.
Proof.
  unfold owned_by_other, truthy, strict_neq.
  destruct (PromptTemplates.ownerId r) as [o|].
  - rewrite andb_true_iff, !negb_true_iff, !String.eqb_neq. split.
    + intros (o' & E & H1 & H2). inversion E; subst. auto.
    + intros [H1 H2]. exists o. auto.
  - split; [intros (o & E & _); discriminate | discriminate].
Qed.

Lemma find_none_iff {A : Type} (f : A -> bool) (l : list A) :
  find f l = None <-> forall a, In a l -> f a = false.
Proof.
  split.
  - intros H a. apply (find_none f l H).
  - induction l as [|a l IH]; simpl; intros H; [reflexivity|].
    rewrite (H a) by auto. apply IH. intros b Hb. apply H. auto.
Qed.

(** ** Template management *)

Section TemplateWrites.
Variables (userId : string) (now : Date) (db : DB).

Lemma updatePromptTemplate_run raw i :
  UpdatePromptTemplate.schema raw = Some i ->
  updatePromptTemplate raw (signed_in userId) now db
  = match ensureTemplateAccessible (UpdatePromptTemplate.id i) userId db with
    | (inl e, _) => (inl e, db)
    | (inr _, _) =>
        let c := sql_eq Z.eqb (col PromptTemplates.id)
                   (Some (UpdatePromptTemplate.id i)) in
        let '(t, returning) :=
          update_where (UpdatePromptTemplate.set i now) c (templates db) in
        (inr {| success := true; data := hd_error returning |},
         set_templates t db)
    end.
Proof.
  intros S. unfold updatePromptTemplate, defineAction. rewrite S.
  unfold UpdatePromptTemplate.handler. run.
  pose proof (ensureTemplateAccessible_reads (UpdatePromptTemplate.id i) userId db) as F.
  unfold final in F.
  destruct (ensureTemplateAccessible _ _ db) as [[e|r] d]; simpl in F; subst d;
    reflexivity.
Qed.

Lemma createGeneratedPrompt_run raw i :
  CreateGeneratedPrompt.schema raw = Some i ->
  createGeneratedPrompt raw (signed_in userId) now db
  = let insert :=
      let '(t, returning) :=
        insert_row GeneratedPrompts.id
          (fun k =>
             {| GeneratedPrompts.id := k;
                GeneratedPrompts.templateId := CreateGeneratedPrompt.templateId i;
                GeneratedPrompts.userId := Some userId;
                GeneratedPrompts.input := CreateGeneratedPrompt.input_ i;
                GeneratedPrompts.promptText := CreateGeneratedPrompt.promptText i;
                GeneratedPrompts.meta := CreateGeneratedPrompt.meta i;
                GeneratedPrompts.createdAt := now |})
          (prompts db) in
      (inr {| success := true; data := hd_error returning |}, set_prompts t db) in
    match CreateGeneratedPrompt.templateId i with
    | None => insert
    | Some templateId =>
        match ensureTemplateAccessible templateId userId db with
        | (inl e, _) => (inl e, db)
        | (inr _, _) => insert
        end
    end.
Proof.
  intros S. unfold createGeneratedPrompt, defineAction. rewrite S.
  unfold CreateGeneratedPrompt.handler. run.
  destruct (CreateGeneratedPrompt.templateId i) as [t|]; [|reflexivity].
  pose proof (ensureTemplateAccessible_reads t userId db) as F. unfold final in F.
  destruct (ensureTemplateAccessible _ _ db) as [[e|r] d]; simpl in F; subst d;
    reflexivity.
Qed.

Lemma createPromptJob_run raw i :
  CreatePromptJob.schema raw = Some i ->
  createPromptJob raw (signed_in userId) now db
  = let insert :=
      let '(t, returning) :=
        insert_row PromptJobs.id
          (fun k =>
             {| PromptJobs.id := k;
                PromptJobs.userId := Some userId;
                PromptJobs.templateId := CreatePromptJob.templateId i;
                PromptJobs.input := CreatePromptJob.input_ i;
                PromptJobs.output := CreatePromptJob.output i;
                PromptJobs.status := nullish (CreatePromptJob.status i) completed;
                PromptJobs.createdAt := now |})
          (jobs db) in
      (inr {| success := true; data := hd_error returning |}, set_jobs t db) in
    match CreatePromptJob.templateId i with
    | None => insert
    | Some templateId =>
        match ensureTemplateAccessible templateId userId db with
        | (inl e, _) => (inl e, db)
        | (inr _, _) => insert
        end
    end.
Proof.
  intros S. unfold createPromptJob, defineAction. rewrite S.
  unfold CreatePromptJob.handler. run.
  destruct (CreatePromptJob.templateId i) as [t|]; [|reflexivity].
  pose proof (ensureTemplateAccessible_reads t userId db) as F. unfold final in F.
  destruct (ensureTemplateAccessible _ _ db) as [[e|r] d]; simpl in F; subst d;
    reflexivity.
Qed.
End TemplateWrites.

(** ** Sample data *)

Module Sample.
Definition lesson (id : Z) (owner : option string) (active : bool)
    : PromptTemplates.row :=
  {| PromptTemplates.id := id;
     PromptTemplates.ownerId := owner;
     PromptTemplates.title := "Lesson introduction";
     PromptTemplates.description := None;
     PromptTemplates.template := "Introduce {topic} to {grade} students.";
     PromptTemplates.tags := Some "intro";
     PromptTemplates.isActive := active;
     PromptTemplates.createdAt := 1000;
     PromptTemplates.updatedAt := 1000 |}.

Definition prompt (id : Z) (user : option string) (templateId : option Z)
    : GeneratedPrompts.row :=
  {| GeneratedPrompts.id := id;
     GeneratedPrompts.templateId := templateId;
     GeneratedPrompts.userId := user;
     GeneratedPrompts.input := Some [("topic", JStr "fractions")];
     GeneratedPrompts.promptText := "Introduce fractions to grade 4 students.";
     GeneratedPrompts.meta := None;
     GeneratedPrompts.createdAt := 2000 |}.

Definition favorite (id : Z) (user : string) (promptId : Z)
    : UserPromptFavorites.row :=
  {| UserPromptFavorites.id := id;
     UserPromptFavorites.userId := user;
     UserPromptFavorites.promptId := promptId;
     UserPromptFavorites.createdAt := 3000 |}.

Definition table_of {R : Type} (l : list R) : table R :=
  {| rows := l; seq := Z.of_nat (List.length l) |}.

Definition db_of (ts : list PromptTemplates.row)
    (ps : list GeneratedPrompts.row) (fs : list UserPromptFavorites.row) : DB :=
  {| templates := table_of ts; prompts := table_of ps;
     favorites := table_of fs; jobs := empty_table |}.

(** alice owns template 1, template 2 is shared, template 3 has the empty
    string as its owner; alice and bob each generated one prompt. *)
Definition db : DB :=
  db_of [lesson 1 (Some "alice") true; lesson 2 None true; lesson 3 (Some "") true]
        [prompt 1 (Some "alice") (Some 1); prompt 2 (Some "bob") None]
        [].

Definition prompt_request (templateId : option Z) : CreateGeneratedPrompt.raw :=
  {| CreateGeneratedPrompt.raw_templateId := templateId;
     CreateGeneratedPrompt.raw_input := None;
     CreateGeneratedPrompt.raw_promptText := Some "Explain photosynthesis.";
     CreateGeneratedPrompt.raw_meta := None |}.
End Sample.

(** ** C4: the accessibility check and the writes it guards *)

(** C4, as amended.  [ensureTemplateAccessible] fails NOT_FOUND when no
    template row has the key; otherwise, on the row with that key, it fails
    FORBIDDEN when the row's [ownerId] is non-null, non-empty and different
    from the caller's id, and returns the row in every other case (a null
    and an empty [ownerId] alike).  It never writes; and when it fails,
    [updatePromptTemplate], and [createGeneratedPrompt] and [createPromptJob]
    given that [templateId], fail with the same error and leave the database
    as it was. *)
Theorem ensureTemplateAccessible_contract templateId userId db :
  ((forall r, In r (rows (templates db)) -> PromptTemplates.id r <> templateId) ->
   ensureTemplateAccessible templateId userId db = (inl not_found_template, db))
  /\ (forall r, template_with_id templateId db = Some r ->
        owned_by_other r userId ->
        ensureTemplateAccessible templateId userId db = (inl forbidden_template, db))
  /\ (forall r, template_with_id templateId db = Some r ->
        ~ owned_by_other r userId ->
        ensureTemplateAccessible templateId userId db = (inr r, db))
  /\ (forall e now,
        outcome (ensureTemplateAccessible templateId userId) db = inl e ->
        (forall raw i,
            UpdatePromptTemplate.schema raw = Some i ->
            UpdatePromptTemplate.id i = templateId ->
            updatePromptTemplate raw (signed_in userId) now db = (inl e, db))
        /\ (forall raw i,
              CreateGeneratedPrompt.schema raw = Some i ->
              CreateGeneratedPrompt.templateId i = Some templateId ->
              createGeneratedPrompt raw (signed_in userId) now db = (inl e, db))
        /\ (forall raw i,
              CreatePromptJob.schema raw = Some i ->
              CreatePromptJob.templateId i = Some templateId ->
              createPromptJob raw (signed_in userId) now db = (inl e, db))).
Proof.
  repeat split.
  - intros H. rewrite ensureTemplateAccessible_cases.
    replace (template_with_id templateId db) with (@None PromptTemplates.row);
      [reflexivity|].
    symmetry. apply find_none_iff. intros r Hr. apply Z.eqb_neq. auto.
  - intros r F O. rewrite ensureTemplateAccessible_cases, F.
    apply owned_by_other_iff in O. rewrite O. reflexivity.
  - intros r F O. rewrite ensureTemplateAccessible_cases, F.
    destruct (truthy _ && strict_neq _ _) eqn:E; [|reflexivity].
    exfalso. apply O, owned_by_other_iff, E.
  - intros raw i S I. rewrite (updatePromptTemplate_run _ _ _ _ _ S), I.
    rewrite (ensureTemplateAccessible_fails _ _ _ _ H). reflexivity.
  - intros raw i S I. rewrite (createGeneratedPrompt_run _ _ _ _ _ S), I.
    rewrite (ensureTemplateAccessible_fails _ _ _ _ H). reflexivity.
  - intros raw i S I. rewrite (createPromptJob_run _ _ _ _ _ S), I.
    rewrite (ensureTemplateAccessible_fails _ _ _ _ H). reflexivity.
Qed.

(** bob asks for a prompt from alice's template 1: FORBIDDEN, nothing
    written. *)
Lemma ensureTemplateAccessible_contract_witness :
  createGeneratedPrompt (Sample.prompt_request (Some 1)) (signed_in "bob") 5000
    Sample.db
  = (inl forbidden_template, Sample.db).
Proof.
  destruct (ensureTemplateAccessible_contract 1 "bob" Sample.db)
    as (_ & _ & _ & H).
  destruct (H forbidden_template 5000) as (_ & G & _); [reflexivity|].
  apply (G (Sample.prompt_request (Some 1))
           {| CreateGeneratedPrompt.templateId := Some 1;
              CreateGeneratedPrompt.input_ := None;
              CreateGeneratedPrompt.promptText := "Explain photosynthesis.";
              CreateGeneratedPrompt.meta := None |}); reflexivity.
Defined.

Definition retitle_request (templateId : option Z) (title : option string)
    : UpdatePromptTemplate.raw :=
  {| UpdatePromptTemplate.raw_id := templateId;
     UpdatePromptTemplate.raw_title := title;
     UpdatePromptTemplate.raw_description := None;
     UpdatePromptTemplate.raw_template := None;
     UpdatePromptTemplate.raw_tags := None;
     UpdatePromptTemplate.raw_isActive := None |}.

(** C4, as stated, fails: template 3 has a non-null [ownerId], the empty
    string, which differs from bob's id, and the check returns the row to
    bob instead of failing FORBIDDEN; so bob's update of it goes through. *)
Lemma ensureTemplateAccessible_empty_owner_not_forbidden :
  template_with_id 3 Sample.db = Some (Sample.lesson 3 (Some "") true)
  /\ PromptTemplates.ownerId (Sample.lesson 3 (Some "") true) = Some ""
  /\ "" <> "bob"
  /\ ensureTemplateAccessible 3 "bob" Sample.db
     = (inr (Sample.lesson 3 (Some "") true), Sample.db)
  /\ outcome (updatePromptTemplate (retitle_request (Some 3) (Some "Mine"))
                (signed_in "bob") 9000) Sample.db
     = inr {| success := true;
              data := Some (UpdatePromptTemplate.set
                              {| UpdatePromptTemplate.id := 3;
                                 UpdatePromptTemplate.title := Some "Mine";
                                 UpdatePromptTemplate.description := None;
                                 UpdatePromptTemplate.template := None;
                                 UpdatePromptTemplate.tags := None;
                                 UpdatePromptTemplate.isActive := None |}
                              9000 (Sample.lesson 3 (Some "") true)) |}
  /\ ~ (forall templateId userId db r o,
          template_with_id templateId db = Some r ->
          PromptTemplates.ownerId r = Some o ->
          o <> userId ->
          exists message,
            outcome (ensureTemplateAccessible templateId userId) db
            = inl (ActionError FORBIDDEN message)).
Proof.
  repeat split; try discriminate.
  intros H.
  destruct (H 3 "bob" Sample.db (Sample.lesson 3 (Some "") true) "")
    as [message E]; try reflexivity; discriminate.
Qed.

(** ** C1: listing templates *)

(** The rows [listPromptTemplates] selects: those whose [ownerId] is the
    caller's id, active ones only unless [includeInactive]. *)
Definition listed_template (userId : string) (includeInactive : bool)
    (r : PromptTemplates.row) : bool :=
  match PromptTemplates.ownerId r with
  | Some o => (o =? userId)%string
  | None => false
  end
  && (includeInactive || PromptTemplates.isActive r).

Definition includeInactive_of (raw : ListPromptTemplates.raw) : bool :=
  match raw with
  | Some o => nullish (ListPromptTemplates.raw_includeInactive o) false
  | None => false
  end.

Lemma visibilityFilter_matches userId r :
  matches (ListPromptTemplates.visibilityFilter {| App.id := userId |}) r
  = match PromptTemplates.ownerId r with
    | Some o => (o =? userId)%string
    | None => false
    end.
Proof.
  unfold ListPromptTemplates.visibilityFilter.
  rewrite matches_or2, matches_eq_nullable, matches_eq_null.
  apply orb_false_r.
Qed.

Lemma listPromptTemplates_items raw userId now db :
  listPromptTemplates raw (signed_in userId) now db
  = (inr {| success := true;
            data := listing (filter (listed_template userId (includeInactive_of raw))
                               (rows (templates db))) |},
     db).
Proof.
  unfold listPromptTemplates, ListPromptTemplates.handler. run.
  unfold select_where. do 4 f_equal.
  apply filter_ext_eq. intros r. unfold listed_template.
  destruct raw as [[[[|]|]]|]; simpl;
    rewrite ?matches_and2, ?matches_eq_col, visibilityFilter_matches;
    destruct (PromptTemplates.ownerId r) as [o|];
    try destruct (o =? userId)%string;
    destruct (PromptTemplates.isActive r); reflexivity.
Qed.

(** No caller is ever shown an ownerless row. *)
Lemma listPromptTemplates_never_lists_ownerless raw userId now db env r :
  outcome (listPromptTemplates raw (signed_in userId) now) db = inr env ->
  In r (items (data env)) ->
  PromptTemplates.ownerId r <> None.
Proof.
  unfold outcome. rewrite listPromptTemplates_items. simpl.
  intros E; inversion E; subst; simpl.
  rewrite filter_In. unfold listed_template.
  destruct (PromptTemplates.ownerId r); [discriminate|].
  intros [_ H]; discriminate.
Qed.

(** C1 fails on the code.  The sample database holds the active ownerless
    template 2, and bob's listing is empty: the visibility filter tests
    [ownerId] against null with [eq], a comparison that is true of no row,
    so ownerless rows are never listed. *)
Theorem listPromptTemplates_omits_ownerless :
  In (Sample.lesson 2 None true) (rows (templates Sample.db))
  /\ listPromptTemplates None (signed_in "bob") 5000 Sample.db
     = (inr {| success := true; data := {| items := []; total := 0 |} |},
        Sample.db)
  /\ listPromptTemplates
       (Some {| ListPromptTemplates.raw_includeInactive := Some true |})
       (signed_in "alice") 5000 Sample.db
     = (inr {| success := true;
               data := {| items := [Sample.lesson 1 (Some "alice") true];
                          total := 1 |} |},
        Sample.db).
Proof.
  split; [simpl; auto|]. split; reflexivity.
Qed.

(** ** C5: listing generated prompts *)

Definition prompt_of_user (userId : string) (r : GeneratedPrompts.row) : bool :=
  match GeneratedPrompts.userId r with
  | Some u => (u =? userId)%string
  | None => false
  end.

Definition prompt_of_template (templateId : option Z) (r : GeneratedPrompts.row)
    : bool :=
  match templateId, GeneratedPrompts.templateId r with
  | None, _ => true
  | Some t, Some t' => t' =? t
  | Some _, None => false
  end.

(** The rows selected for a caller and an optional template. *)
Definition prompts_of (userId : string) (templateId : option Z) (db : DB)
    : list GeneratedPrompts.row :=
  filter (fun r => prompt_of_user userId r && prompt_of_template templateId r)
         (rows (prompts db)).

Lemma listGeneratedPrompts_run raw userId now db :
  listGeneratedPrompts raw (signed_in userId) now db
  = (inr {| success := true;
            data := listing (prompts_of userId
                               (ListGeneratedPrompts.templateId_of raw) db) |},
     db).
Proof.
  unfold listGeneratedPrompts, ListGeneratedPrompts.handler. run.
  unfold select_where, prompts_of. do 4 f_equal.
  apply filter_ext_eq. intros r.
  unfold prompt_of_user, prompt_of_template.
  destruct (ListGeneratedPrompts.templateId_of raw) as [t|]; simpl.
  - rewrite matches_and2, !matches_eq_nullable. reflexivity.
  - rewrite matches_and1, matches_eq_nullable, andb_true_r. reflexivity.
Qed.




(** ** Favorites *)

(** The favorite rows of one (user, prompt) pair. *)
Definition is_favorite (userId : string) (promptId : Z)
    (f : UserPromptFavorites.row) : bool :=
  (UserPromptFavorites.promptId f =? promptId)
  && (UserPromptFavorites.userId f =? userId)%string.

Definition favorites_of (userId : string) (promptId : Z) (db : DB)
    : list UserPromptFavorites.row :=
  filter (is_favorite userId promptId) (rows (favorites db)).

(** The prompt rows with this key that belong to this user. *)
Definition is_own_prompt (userId : string) (promptId : Z)
    (p : GeneratedPrompts.row) : bool :=
  (GeneratedPrompts.id p =? promptId) && prompt_of_user userId p.

Definition favorite_request (promptId : Z) : AddFavoritePrompt.raw :=
  {| AddFavoritePrompt.raw_promptId := Some promptId |}.

Definition unfavorite_request (promptId : Z) : RemoveFavoritePrompt.raw :=
  {| RemoveFavoritePrompt.raw_promptId := Some promptId |}.

Definition not_found_prompt : Error := ActionError NOT_FOUND "Prompt not found.".
Definition not_found_favorite : Error := ActionError NOT_FOUND "Favorite not found.".

(** The row [addFavoritePrompt] inserts. *)
Definition new_favorite (userId : string) (promptId : Z) (now : Date) (db : DB)
    : UserPromptFavorites.row :=
  {| UserPromptFavorites.id := next_id UserPromptFavorites.id (favorites db);
     UserPromptFavorites.userId := userId;
     UserPromptFavorites.promptId := promptId;
     UserPromptFavorites.createdAt := now |}.

Lemma favorite_of_matches promptId userId f :
  matches (favorite_of promptId userId) f = is_favorite userId promptId f.
Proof.
  unfold favorite_of. rewrite matches_and2, !matches_eq_col. reflexivity.
Qed.

Lemma select_favorites promptId userId db :
  select_where (favorite_of promptId userId) (favorites db)
  = favorites_of userId promptId db.
Proof.
  apply filter_ext_eq. intros f. apply favorite_of_matches.
Qed.

Lemma select_own_prompt promptId userId db :
  hd_error
    (select_where
       (sql_and [ sql_eq Z.eqb (col GeneratedPrompts.id) (Some promptId);
                  sql_eq String.eqb GeneratedPrompts.userId (Some userId) ])
       (prompts db))
  = find (is_own_prompt userId promptId) (rows (prompts db)).
Proof.
  unfold select_where.
  rewrite (filter_ext_eq _ (is_own_prompt userId promptId)).
  - apply hd_error_filter.
  - intros p. rewrite matches_and2, matches_eq_col, matches_eq_nullable.
    reflexivity.
Qed.

Lemma addFavoritePrompt_run promptId userId now db :
  addFavoritePrompt (favorite_request promptId) (signed_in userId) now db
  = match find (is_own_prompt userId promptId) (rows (prompts db)) with
    | None => (inl not_found_prompt, db)
    | Some _ =>
        match hd_error (favorites_of userId promptId db) with
        | Some existing => (inr {| success := true; data := Some existing |}, db)
        | None =>
            let f := new_favorite userId promptId now db in
            (inr {| success := true; data := Some f |},
             set_favorites {| rows := rows (favorites db) ++ [f];
                              seq := UserPromptFavorites.id f |} db)
        end
    end.
Proof.
  unfold addFavoritePrompt, AddFavoritePrompt.handler. run.
  rewrite select_own_prompt.
  destruct (find _ (rows (prompts db))); [|reflexivity].
  rewrite select_favorites.
  destruct (hd_error (favorites_of userId promptId db)); reflexivity.
Qed.

Lemma removeFavoritePrompt_run promptId userId now db :
  removeFavoritePrompt (unfavorite_request promptId) (signed_in userId) now db
  = let db' :=
      set_favorites
        {| rows := filter (fun f => negb (is_favorite userId promptId f))
                     (rows (favorites db));
           seq := seq (favorites db) |} db in
    if Z.of_nat (List.length (favorites_of userId promptId db)) =? 0
    then (inl not_found_favorite, db')
    else (inr {| RemoveFavoritePrompt.ack_success := true |}, db').
Proof.
  unfold removeFavoritePrompt, RemoveFavoritePrompt.handler. run.
  unfold favorites_of.
  rewrite (filter_ext_eq (matches _) (is_favorite userId promptId))
    by (intros f; apply favorite_of_matches).
  rewrite (filter_ext_eq (fun r => negb (matches _ r))
             (fun f => negb (is_favorite userId promptId f)))
    by (intros f; rewrite favorite_of_matches; reflexivity).
  destruct (_ =? 0); reflexivity.
Qed.

Lemma filter_nil_iff {A : Type} (f : A -> bool) (l : list A) :
  filter f l = [] <-> forall a, In a l -> f a = false.
Proof.
  induction l as [|a l IH]; simpl.
  - split; [intros _ b [] | reflexivity].
  - destruct (f a) eqn:E; split.
    + discriminate.
    + intros H. rewrite (H a) in E by auto. discriminate.
    + intros H b [<-|Hb]; [exact E | apply IH; assumption].
    + intros H. apply IH. intros b Hb. apply H. auto.
Qed.

Lemma filter_none_id {A : Type} (f : A -> bool) (l : list A) :
  filter f l = [] -> filter (fun a => negb (f a)) l = l.
Proof.
  induction l as [|a l IH]; simpl; [reflexivity|].
  destruct (f a); [discriminate|]. simpl. intros H. rewrite IH; auto.
Qed.

Lemma filter_negb_none {A : Type} (f : A -> bool) (l : list A) :
  filter f (filter (fun a => negb (f a)) l) = [].
Proof.
  apply filter_nil_iff. intros a Ha. apply filter_In in Ha.
  destruct Ha as [_ Ha]. apply negb_true_iff. exact Ha.
Qed.

Lemma set_favorites_same db :
  set_favorites {| rows := rows (favorites db); seq := seq (favorites db) |} db = db.
Proof. destruct db as [t p [fr fs] j]. reflexivity. Qed.

Lemma own_prompt_found userId promptId p db :
  In p (rows (prompts db)) ->
  GeneratedPrompts.id p = promptId ->
  GeneratedPrompts.userId p = Some userId ->
  exists q, find (is_own_prompt userId promptId) (rows (prompts db)) = Some q.
Proof.
  intros I K U.
  destruct (find _ (rows (prompts db))) as [q|] eqn:F; [eauto|].
  exfalso. pose proof (find_none _ _ F p I) as N.
  unfold is_own_prompt, prompt_of_user in N.
  rewrite K, U, Z.eqb_refl, String.eqb_refl in N. discriminate.
Qed.

Lemma own_prompt_sound userId promptId q db :
  find (is_own_prompt userId promptId) (rows (prompts db)) = Some q ->
  In q (rows (prompts db))
  /\ GeneratedPrompts.id q = promptId
  /\ GeneratedPrompts.userId q = Some userId.
Proof.
  intros F. apply find_some in F. destruct F as [I H].
  unfold is_own_prompt, prompt_of_user in H.
  apply andb_true_iff in H. destruct H as [K U].
  apply Z.eqb_eq in K.
  destruct (GeneratedPrompts.userId q) as [u|]; [|discriminate].
  apply String.eqb_eq in U. subst. auto.
Qed.

Lemma new_favorite_is_favorite userId promptId now db :
  is_favorite userId promptId (new_favorite userId promptId now db) = true.
Proof.
  unfold is_favorite, new_favorite; simpl.
  rewrite Z.eqb_refl, String.eqb_refl. reflexivity.
Qed.

(** ** C2: adding a favorite twice *)

(** C2.  Let the caller own a generated prompt, in a database with at most
    one favorite row for the pair (the invariant of the data model, which
    sequential calls maintain).  Then two successive calls of
    [addFavoritePrompt] for that prompt both succeed, both return the same
    favorite row, the second changes nothing, and afterwards that row is the
    one and only favorite of the pair; the table gained that row or none. *)
Theorem addFavoritePrompt_twice userId promptId p now1 now2 db :
  In p (rows (prompts db)) ->
  GeneratedPrompts.id p = promptId ->
  GeneratedPrompts.userId p = Some userId ->
  (List.length (favorites_of userId promptId db) <= 1)%nat ->
  exists f db1,
    addFavoritePrompt (favorite_request promptId) (signed_in userId) now1 db
    = (inr {| success := true; data := Some f |}, db1)
    /\ addFavoritePrompt (favorite_request promptId) (signed_in userId) now2 db1
       = (inr {| success := true; data := Some f |}, db1)
    /\ favorites_of userId promptId db1 = [f]
    /\ (rows (favorites db1) = rows (favorites db)
        \/ rows (favorites db1) = rows (favorites db) ++ [f]).
Proof.
  intros I K U L.
  destruct (own_prompt_found _ _ _ _ I K U) as [q Q].
  destruct (favorites_of userId promptId db) as [|f [|g l]] eqn:F.
  - (* no favorite yet: the first call inserts one *)
    set (f := new_favorite userId promptId now1 db).
    set (db1 := set_favorites {| rows := rows (favorites db) ++ [f];
                                 seq := UserPromptFavorites.id f |} db).
    assert (F1 : favorites_of userId promptId db1 = [f]).
    { unfold favorites_of, db1; simpl. rewrite filter_app.
      unfold favorites_of in F. rewrite F. simpl.
      unfold f. rewrite new_favorite_is_favorite. reflexivity. }
    exists f, db1. repeat split.
    + rewrite addFavoritePrompt_run, Q, F. reflexivity.
    + rewrite addFavoritePrompt_run.
      replace (rows (prompts db1)) with (rows (prompts db)) by reflexivity.
      rewrite Q, F1. reflexivity.
    + exact F1.
    + right. reflexivity.
  - (* one favorite: both calls return it *)
    exists f, db.
    split; [rewrite addFavoritePrompt_run, Q, F; reflexivity|].
    split; [rewrite addFavoritePrompt_run, Q, F; reflexivity|].
    split; [exact F | left; reflexivity].
  - simpl in L. lia.
Qed.

(** alice favorites her prompt 1 twice. *)
Lemma addFavoritePrompt_twice_witness :
  exists f db1,
    addFavoritePrompt (favorite_request 1) (signed_in "alice") 6000 Sample.db
    = (inr {| success := true; data := Some f |}, db1)
    /\ addFavoritePrompt (favorite_request 1) (signed_in "alice") 7000 db1
       = (inr {| success := true; data := Some f |}, db1)
    /\ favorites_of "alice" 1 db1 = [f]
    /\ (rows (favorites db1) = rows (favorites Sample.db)
        \/ rows (favorites db1) = rows (favorites Sample.db) ++ [f]).
Proof.
  apply (addFavoritePrompt_twice "alice" 1
           (Sample.prompt 1 (Some "alice") (Some 1)) 6000 7000 Sample.db).
  - simpl. auto.
  - reflexivity.
  - reflexivity.
  - simpl. lia.
Defined.

(** ** C7: favorites point at the caller's own prompts *)

(** C7.  [addFavoritePrompt] fails NOT_FOUND, writing nothing, whenever no
    prompt row has both the given key and the caller as its [userId] (the
    row is missing, or belongs to someone else, or to nobody).  When it
    succeeds such a row exists, and every favorite row in the table
    afterwards either was there before or is the caller's own favorite of
    that prompt of theirs. *)
Theorem addFavoritePrompt_own_prompts_only promptId userId now db :
  ((forall p, In p (rows (prompts db)) ->
              GeneratedPrompts.id p = promptId ->
              GeneratedPrompts.userId p <> Some userId) ->
   addFavoritePrompt (favorite_request promptId) (signed_in userId) now db
   = (inl not_found_prompt, db))
  /\ (forall env db',
        addFavoritePrompt (favorite_request promptId) (signed_in userId) now db
        = (inr env, db') ->
        (exists p, In p (rows (prompts db))
                   /\ GeneratedPrompts.id p = promptId
                   /\ GeneratedPrompts.userId p = Some userId)
        /\ forall f, In f (rows (favorites db')) ->
             In f (rows (favorites db))
             \/ (UserPromptFavorites.userId f = userId
                 /\ UserPromptFavorites.promptId f = promptId)).
Proof.
  split.
  - intros H. rewrite addFavoritePrompt_run.
    destruct (find _ (rows (prompts db))) as [q|] eqn:F; [|reflexivity].
    apply own_prompt_sound in F. destruct F as (I & K & U).
    exfalso. exact (H q I K U).
  - intros env db'. rewrite addFavoritePrompt_run.
    destruct (find _ (rows (prompts db))) as [q|] eqn:F; [|discriminate].
    apply own_prompt_sound in F. split; [eauto|].
    destruct (hd_error (favorites_of userId promptId db)) as [g|];
      inversion H; subst; simpl; intros f' I'; auto.
    apply in_app_or in I'. destruct I' as [I'|[<-|[]]]; auto.
Qed.

(** bob tries to favorite alice's prompt 1. *)
Lemma addFavoritePrompt_own_prompts_only_witness :
  addFavoritePrompt (favorite_request 1) (signed_in "bob") 6000 Sample.db
  = (inl not_found_prompt, Sample.db).
Proof.
  apply (addFavoritePrompt_own_prompts_only 1 "bob" 6000 Sample.db).
  intros p [<-|[<-|[]]]; simpl; intros; discriminate.
Defined.

(** ** C3: removing a favorite *)

(** C3.  [removeFavoritePrompt] deletes the favorite rows of the (caller,
    prompt) pair and nothing else.  It fails NOT_FOUND exactly when there was
    no such row, and then the database is unchanged; otherwise it succeeds
    and no such row remains.  So from a database with exactly one such row,
    the first of two successive calls succeeds and the second fails
    NOT_FOUND. *)
Theorem removeFavoritePrompt_not_idempotent promptId userId now db :
  let call := removeFavoritePrompt (unfavorite_request promptId) (signed_in userId) in
  let db' :=
    set_favorites
      {| rows := filter (fun f => negb (is_favorite userId promptId f))
                   (rows (favorites db));
         seq := seq (favorites db) |} db in
  (favorites_of userId promptId db = [] ->
   call now db = (inl not_found_favorite, db))
  /\ (favorites_of userId promptId db <> [] ->
      call now db = (inr {| RemoveFavoritePrompt.ack_success := true |}, db')
      /\ favorites_of userId promptId db' = [])
  /\ (List.length (favorites_of userId promptId db) = 1%nat ->
      forall now2,
        call now db = (inr {| RemoveFavoritePrompt.ack_success := true |}, db')
        /\ call now2 db' = (inl not_found_favorite, db')).
Proof.
  intros call db'.
  assert (Gone : favorites_of userId promptId db' = []).
  { unfold favorites_of, db'; simpl. apply filter_negb_none. }
  assert (Miss : forall d n, favorites_of userId promptId d = [] ->
                   call n d = (inl not_found_favorite, d)).
  { intros d n E. unfold call. rewrite removeFavoritePrompt_run, E. simpl.
    unfold favorites_of in E. rewrite (filter_none_id _ _ E).
    rewrite set_favorites_same. reflexivity. }
  assert (Hit : favorites_of userId promptId db <> [] ->
                call now db = (inr {| RemoveFavoritePrompt.ack_success := true |}, db')).
  { intros N. unfold call. rewrite removeFavoritePrompt_run.
    destruct (favorites_of userId promptId db); [congruence|reflexivity]. }
  split; [apply Miss|]. split.
  - intros N. split; [apply Hit, N | exact Gone].
  - intros L now2. split.
    + apply Hit. intros E. rewrite E in L. discriminate.
    + apply Miss, Gone.
Qed.

(** alice stars her prompt 1 in the sample database. *)
Definition starred_db : DB :=
  set_favorites (Sample.table_of [Sample.favorite 1 "alice" 1]) Sample.db.

(** alice removes that favorite twice. *)
Lemma removeFavoritePrompt_not_idempotent_witness :
  removeFavoritePrompt (unfavorite_request 1) (signed_in "alice") 8000 starred_db
  = (inr {| RemoveFavoritePrompt.ack_success := true |},
     set_favorites {| rows := []; seq := 1 |} Sample.db)
  /\ removeFavoritePrompt (unfavorite_request 1) (signed_in "alice") 9000
       (set_favorites {| rows := []; seq := 1 |} Sample.db)
     = (inl not_found_favorite,
        set_favorites {| rows := []; seq := 1 |} Sample.db).
Proof.
  destruct (removeFavoritePrompt_not_idempotent 1 "alice" 8000 starred_db)
    as (_ & _ & H).
  apply (H eq_refl 9000).
Defined.

(** ** C8: creating a template *)



Lemma z_string_min1_some s t : z_string_min1 s = Some t -> s = Some t /\ t <> "".
Proof.
  destruct s as [[|a s]|]; simpl; try discriminate.
  intros E; inversion E; subst. split; [reflexivity | discriminate].
Qed.




(** ** C6: updating a template *)

Definition unauthorized : Error :=
  ActionError UNAUTHORIZED "You must be signed in to perform this action.".

Lemma context_cases context :
  {userId | context = signed_in userId}
  + {forall db, requireUser context db = (inl unauthorized, db)}.
Proof.
  destruct context as [[[[[u]|]]|]].
  - left. exists u. reflexivity.
  - right. reflexivity.
  - right. reflexivity.
Qed.

(** No mutable field is supplied. *)
Definition no_fields (raw : UpdatePromptTemplate.raw) : Prop :=
  UpdatePromptTemplate.raw_title raw = None
  /\ UpdatePromptTemplate.raw_description raw = None
  /\ UpdatePromptTemplate.raw_template raw = None
  /\ UpdatePromptTemplate.raw_tags raw = None
  /\ UpdatePromptTemplate.raw_isActive raw = None.

(** [r'] is [r] with the supplied fields overwritten and [updatedAt] set. *)
Definition patched (raw : UpdatePromptTemplate.raw) (now : Date)
    (r r' : PromptTemplates.row) : Prop :=
  PromptTemplates.id r' = PromptTemplates.id r
  /\ PromptTemplates.ownerId r' = PromptTemplates.ownerId r
  /\ PromptTemplates.createdAt r' = PromptTemplates.createdAt r
  /\ PromptTemplates.updatedAt r' = now
  /\ (forall v, UpdatePromptTemplate.raw_title raw = Some v ->
                PromptTemplates.title r' = v)
  /\ (UpdatePromptTemplate.raw_title raw = None ->
      PromptTemplates.title r' = PromptTemplates.title r)
  /\ (forall v, UpdatePromptTemplate.raw_description raw = Some v ->
                PromptTemplates.description r' = Some v)
  /\ (UpdatePromptTemplate.raw_description raw = None ->
      PromptTemplates.description r' = PromptTemplates.description r)
  /\ (forall v, UpdatePromptTemplate.raw_template raw = Some v ->
                PromptTemplates.template r' = v)
  /\ (UpdatePromptTemplate.raw_template raw = None ->
      PromptTemplates.template r' = PromptTemplates.template r)
  /\ (forall v, UpdatePromptTemplate.raw_tags raw = Some v ->
                PromptTemplates.tags r' = Some v)
  /\ (UpdatePromptTemplate.raw_tags raw = None ->
      PromptTemplates.tags r' = PromptTemplates.tags r)
  /\ (forall v, UpdatePromptTemplate.raw_isActive raw = Some v ->
                PromptTemplates.isActive r' = v)
  /\ (UpdatePromptTemplate.raw_isActive raw = None ->
      PromptTemplates.isActive r' = PromptTemplates.isActive r).

Lemma z_string_min1_optional_some s t :
  z_string_min1_optional s = Some t -> t = s.
Proof.
  destruct s as [[|a s]|]; simpl; intros E; inversion E; reflexivity.
Qed.

(** A parsed input carries the raw fields. *)
Lemma UpdatePromptTemplate_schema_some raw i :
  UpdatePromptTemplate.schema raw = Some i ->
  UpdatePromptTemplate.raw_id raw = Some (UpdatePromptTemplate.id i)
  /\ UpdatePromptTemplate.title i = UpdatePromptTemplate.raw_title raw
  /\ UpdatePromptTemplate.description i = UpdatePromptTemplate.raw_description raw
  /\ UpdatePromptTemplate.template i = UpdatePromptTemplate.raw_template raw
  /\ UpdatePromptTemplate.tags i = UpdatePromptTemplate.raw_tags raw
  /\ UpdatePromptTemplate.isActive i = UpdatePromptTemplate.raw_isActive raw.
Proof.
  unfold UpdatePromptTemplate.schema.
  destruct (UpdatePromptTemplate.raw_id raw) as [n|]; [|discriminate].
  destruct (z_string_min1_optional _) as [t|] eqn:T; [|discriminate].
  apply z_string_min1_optional_some in T.
  destruct (UpdatePromptTemplate.refinement _); [|discriminate].
  intros E; inversion E; subst; simpl. auto 10.
Qed.

Lemma UpdatePromptTemplate_schema_no_fields raw :
  no_fields raw -> UpdatePromptTemplate.schema raw = None.
Proof.
  intros (T & D & B & G & A). unfold UpdatePromptTemplate.schema.
  rewrite T, D, B, G, A. simpl.
  destruct (UpdatePromptTemplate.raw_id raw); reflexivity.
Qed.

Lemma set_patched raw i now r :
  UpdatePromptTemplate.schema raw = Some i ->
  patched raw now r (UpdatePromptTemplate.set i now r).
Proof.
  intros S. apply UpdatePromptTemplate_schema_some in S.
  destruct S as (_ & T & D & B & G & A).
  unfold patched, UpdatePromptTemplate.set; simpl.
  rewrite T, D, B, G, A.
  repeat split; try (intros v E; rewrite E; reflexivity);
    intros E; rewrite E; reflexivity.
Qed.

Section UpdateWhere.
Variables (patch : PromptTemplates.row -> PromptTemplates.row) (templateId : Z).

Let c : cond PromptTemplates.row :=
  sql_eq Z.eqb (col PromptTemplates.id) (Some templateId).

Lemma update_where_rows t :
  rows (fst (update_where patch c t))
  = map (fun r => if PromptTemplates.id r =? templateId then patch r else r)
        (rows t).
Proof.
  unfold update_where; simpl. apply map_ext. intros r.
  unfold c. rewrite matches_eq_col. reflexivity.
Qed.

Lemma update_where_returning t :
  hd_error (snd (update_where patch c t))
  = option_map patch
      (find (fun r => PromptTemplates.id r =? templateId) (rows t)).
Proof.
  unfold update_where; simpl.
  rewrite (filter_ext_eq _ (fun r => PromptTemplates.id r =? templateId))
    by (intros r; apply matches_eq_col).
  rewrite <- hd_error_filter. destruct (filter _ (rows t)); reflexivity.
Qed.
End UpdateWhere.

Lemma ensureTemplateAccessible_ok templateId userId db r d :
  ensureTemplateAccessible templateId userId db = (inr r, d) ->
  template_with_id templateId db = Some r /\ ~ owned_by_other r userId.
Proof.
  rewrite ensureTemplateAccessible_cases.
  destruct (template_with_id templateId db) as [t|]; [|discriminate].
  destruct (truthy _ && strict_neq _ _) eqn:E; [discriminate|].
  intros H; inversion H; subst. split; [reflexivity|].
  rewrite owned_by_other_iff, E. discriminate.
Qed.

Lemma ensureTemplateAccessible_returns templateId userId db r :
  template_with_id templateId db = Some r ->
  ~ owned_by_other r userId ->
  ensureTemplateAccessible templateId userId db = (inr r, db).
Proof.
  intros F O. rewrite ensureTemplateAccessible_cases, F.
  destruct (truthy _ && strict_neq _ _) eqn:E; [|reflexivity].
  exfalso. apply O, owned_by_other_iff, E.
Qed.

Lemma map_patched raw i now l :
  UpdatePromptTemplate.schema raw = Some i ->
  Forall2
    (fun r r' =>
       if PromptTemplates.id r =? UpdatePromptTemplate.id i
       then patched raw now r r'
       else r' = r)
    l
    (map (fun r => if PromptTemplates.id r =? UpdatePromptTemplate.id i
                   then UpdatePromptTemplate.set i now r
                   else r) l).
Proof.
  intros S. induction l as [|r l IH]; simpl; constructor; [|exact IH].
  destruct (PromptTemplates.id r =? UpdatePromptTemplate.id i);
    [apply set_patched; assumption | reflexivity].
Qed.

(** What [updatePromptTemplate] does when it fails and when it succeeds. *)
Lemma updatePromptTemplate_effect raw context now db :
  (no_fields raw ->
   updatePromptTemplate raw context now db = (inl ActionInputError, db))
  /\ (forall e db',
        updatePromptTemplate raw context now db = (inl e, db') -> db' = db)
  /\ (forall env db',
        updatePromptTemplate raw context now db = (inr env, db') ->
        exists userId templateId target target',
          context = signed_in userId
          /\ UpdatePromptTemplate.raw_id raw = Some templateId
          /\ template_with_id templateId db = Some target
          /\ ~ owned_by_other target userId
          /\ env = {| success := true; data := Some target' |}
          /\ patched raw now target target'
          /\ Forall2
               (fun r r' =>
                  if PromptTemplates.id r =? templateId
                  then patched raw now r r'
                  else r' = r)
               (rows (templates db)) (rows (templates db'))
          /\ prompts db' = prompts db
          /\ favorites db' = favorites db
          /\ jobs db' = jobs db).
Proof.
  split.
  { intros N. unfold updatePromptTemplate, defineAction.
    rewrite (UpdatePromptTemplate_schema_no_fields raw N). reflexivity. }
  destruct (UpdatePromptTemplate.schema raw) as [i|] eqn:S.
  2:{ unfold updatePromptTemplate, defineAction. rewrite S.
      split; intros ? ? E; inversion E; reflexivity. }
  destruct (context_cases context) as [[userId ->]|A].
  2:{ assert (U : updatePromptTemplate raw context now db = (inl unauthorized, db)).
      { unfold updatePromptTemplate, defineAction. rewrite S.
        unfold UpdatePromptTemplate.handler, bind. rewrite A. reflexivity. }
      rewrite U. split; intros ? ? E; inversion E; reflexivity. }
  rewrite (updatePromptTemplate_run _ _ _ _ _ S).
  destruct (ensureTemplateAccessible _ userId db) as [[e|target] d] eqn:G.
  { split; intros ? ? E; inversion E; reflexivity. }
  apply ensureTemplateAccessible_ok in G. destruct G as [F O].
  set (c := sql_eq Z.eqb (col PromptTemplates.id) (Some (UpdatePromptTemplate.id i))).
  pose proof (update_where_rows (UpdatePromptTemplate.set i now)
                (UpdatePromptTemplate.id i) (templates db)) as Rws.
  pose proof (update_where_returning (UpdatePromptTemplate.set i now)
                (UpdatePromptTemplate.id i) (templates db)) as Ret.
  fold c in Rws, Ret. cbv zeta.
  destruct (update_where (UpdatePromptTemplate.set i now) c (templates db))
    as [t returning].
  simpl in Rws, Ret. unfold template_with_id in F. rewrite F in Ret. simpl in Ret.
  split; [discriminate|].
  intros env db' E; inversion E; subst; clear E.
  exists userId, (UpdatePromptTemplate.id i), target,
    (UpdatePromptTemplate.set i now target).
  rewrite Ret. simpl. rewrite Rws.
  split; [reflexivity|].
  split; [apply (UpdatePromptTemplate_schema_some raw i S)|].
  split; [exact F|]. split; [exact O|]. split; [reflexivity|].
  split; [apply (set_patched raw i now target S)|].
  split; [apply (map_patched raw i now _ S) | auto].
Qed.


(** The inputs the update schema accepts. *)
Lemma UpdatePromptTemplate_schema_parses raw templateId :
  UpdatePromptTemplate.raw_id raw = Some templateId ->
  ~ no_fields raw ->
  UpdatePromptTemplate.raw_title raw <> Some "" ->
  exists i,
    UpdatePromptTemplate.schema raw = Some i
    /\ UpdatePromptTemplate.id i = templateId.
Proof.
  intros Id Nf Ti. unfold UpdatePromptTemplate.schema. rewrite Id.
  destruct (UpdatePromptTemplate.raw_title raw) as [[|a t]|] eqn:T; simpl.
  - congruence.
  - eexists. split; reflexivity.
  - unfold UpdatePromptTemplate.refinement; simpl.
    destruct (UpdatePromptTemplate.raw_description raw) eqn:D;
      [eexists; split; reflexivity|].
    destruct (UpdatePromptTemplate.raw_template raw) eqn:B;
      [eexists; split; reflexivity|].
    destruct (UpdatePromptTemplate.raw_tags raw) eqn:G;
      [eexists; split; reflexivity|].
    destruct (UpdatePromptTemplate.raw_isActive raw) eqn:A;
      [eexists; split; reflexivity|].
    exfalso. apply Nf. unfold no_fields. auto.
Qed.

(** An update that parses, of a row the caller may access, goes through. *)
Lemma updatePromptTemplate_accepts raw userId templateId target now db :
  UpdatePromptTemplate.raw_id raw = Some templateId ->
  ~ no_fields raw ->
  UpdatePromptTemplate.raw_title raw <> Some "" ->
  template_with_id templateId db = Some target ->
  ~ owned_by_other target userId ->
  exists target' db',
    updatePromptTemplate raw (signed_in userId) now db
    = (inr {| success := true; data := Some target' |}, db').
Proof.
  intros Id Nf Ti F O.
  destruct (UpdatePromptTemplate_schema_parses raw templateId Id Nf Ti)
    as (i & S & <-).
  rewrite (updatePromptTemplate_run _ _ _ _ _ S).
  rewrite (ensureTemplateAccessible_returns _ _ _ _ F O). cbv zeta.
  pose proof (update_where_returning (UpdatePromptTemplate.set i now)
                (UpdatePromptTemplate.id i) (templates db)) as Ret.
  destruct (update_where _ _ _) as [t returning]. simpl in Ret.
  unfold template_with_id in F. rewrite F in Ret. simpl in Ret. rewrite Ret.
  eauto.
Qed.

(** C6.  [updatePromptTemplate] fails with the input error when none of
    [title], [description], [template], [tags], [isActive] is supplied.
    Whenever it fails, for whatever reason, the database is unchanged.  When
    it succeeds the caller is signed in, the row with the given key passed
    the accessibility check, and the table afterwards is the table before,
    row by row: a row with that key has the supplied fields overwritten and
    [updatedAt] set to now, its [id], [ownerId], [createdAt] and every
    omitted field as before; any other row is as before.  The returned row is
    the target so patched; the other tables are untouched.  And it does
    succeed, for a signed-in caller, whenever an [id] and at least one field
    are supplied, the [title], if supplied, is not empty, and the row with
    that key passes the accessibility check. *)
Theorem updatePromptTemplate_contract raw context now db :
  (no_fields raw ->
   updatePromptTemplate raw context now db = (inl ActionInputError, db))
  /\ (forall e db',
        updatePromptTemplate raw context now db = (inl e, db') -> db' = db)
  /\ (forall env db',
        updatePromptTemplate raw context now db = (inr env, db') ->
        exists userId templateId target target',
          context = signed_in userId
          /\ UpdatePromptTemplate.raw_id raw = Some templateId
          /\ template_with_id templateId db = Some target
          /\ ~ owned_by_other target userId
          /\ env = {| success := true; data := Some target' |}
          /\ patched raw now target target'
          /\ Forall2
               (fun r r' =>
                  if PromptTemplates.id r =? templateId
                  then patched raw now r r'
                  else r' = r)
               (rows (templates db)) (rows (templates db'))
          /\ prompts db' = prompts db
          /\ favorites db' = favorites db
          /\ jobs db' = jobs db)
  /\ (forall userId templateId target,
        context = signed_in userId ->
        UpdatePromptTemplate.raw_id raw = Some templateId ->
        ~ no_fields raw ->
        UpdatePromptTemplate.raw_title raw <> Some "" ->
        template_with_id templateId db = Some target ->
        ~ owned_by_other target userId ->
        exists target' db',
          updatePromptTemplate raw context now db
          = (inr {| success := true; data := Some target' |}, db')).
Proof.
  destruct (updatePromptTemplate_effect raw context now db) as (Bad & Fail & Ok).
  split; [exact Bad|]. split; [exact Fail|]. split; [exact Ok|].
  intros userId templateId target -> Id Nf Ti F O.
  exact (updatePromptTemplate_accepts _ _ _ _ _ _ Id Nf Ti F O).
Qed.

Definition retitled : PromptTemplates.row :=
  {| PromptTemplates.id := 1;
     PromptTemplates.ownerId := Some "alice";
     PromptTemplates.title := "Warm-up";
     PromptTemplates.description := None;
     PromptTemplates.template := "Introduce {topic} to {grade} students.";
     PromptTemplates.tags := Some "intro";
     PromptTemplates.isActive := true;
     PromptTemplates.createdAt := 1000;
     PromptTemplates.updatedAt := 9000 |}.

(** An update with no field is rejected; alice retitles her template 1:
    the call succeeds and stores the row with the new title. *)
Lemma updatePromptTemplate_contract_witness :
  updatePromptTemplate (retitle_request (Some 1) None) (signed_in "alice") 9000
    Sample.db
  = (inl ActionInputError, Sample.db)
  /\ exists target' db',
       updatePromptTemplate (retitle_request (Some 1) (Some "Warm-up"))
         (signed_in "alice") 9000 Sample.db
       = (inr {| success := true; data := Some target' |}, db')
       /\ patched (retitle_request (Some 1) (Some "Warm-up")) 9000
            (Sample.lesson 1 (Some "alice") true) target'
       /\ Forall2
            (fun r r' =>
               if PromptTemplates.id r =? 1
               then patched (retitle_request (Some 1) (Some "Warm-up")) 9000 r r'
               else r' = r)
            (rows (templates Sample.db)) (rows (templates db')).
Proof.
  split.
  - apply (updatePromptTemplate_contract (retitle_request (Some 1) None)
             (signed_in "alice") 9000 Sample.db).
    repeat split.
  - destruct (updatePromptTemplate_contract
                (retitle_request (Some 1) (Some "Warm-up"))
                (signed_in "alice") 9000 Sample.db) as (_ & _ & Ok & Accept).
    destruct (Accept "alice" 1 (Sample.lesson 1 (Some "alice") true))
      as (target' & db' & Run).
    + reflexivity.
    + reflexivity.
    + intros (T & _). discriminate T.
    + discriminate.
    + reflexivity.
    + intros (o & E & _ & N). inversion E; subst. apply N. reflexivity.
    + exists target', db'. split; [exact Run|].
      destruct (Ok _ _ Run)
        as (userId & templateId & target & target0 & _ & I & F & _ & E & P & A & _).
      inversion I; subst. inversion E; subst. inversion F; subst.
      split; [exact P | exact A].
Defined.

(** ** C9: an update can blank the body *)

(** Every template has a non-empty body. *)
Definition bodies_nonempty (db : DB) : Prop :=
  forall r, In r (rows (templates db)) -> PromptTemplates.template r <> "".

Definition blank_body_request (templateId : Z) : UpdatePromptTemplate.raw :=
  {| UpdatePromptTemplate.raw_id := Some templateId;
     UpdatePromptTemplate.raw_title := None;
     UpdatePromptTemplate.raw_description := None;
     UpdatePromptTemplate.raw_template := Some "";
     UpdatePromptTemplate.raw_tags := None;
     UpdatePromptTemplate.raw_isActive := None |}.

Definition blank_body_input (templateId : Z) : UpdatePromptTemplate.input :=
  {| UpdatePromptTemplate.id := templateId;
     UpdatePromptTemplate.title := None;
     UpdatePromptTemplate.description := None;
     UpdatePromptTemplate.template := Some "";
     UpdatePromptTemplate.tags := None;
     UpdatePromptTemplate.isActive := None |}.

Lemma createPromptTemplate_keeps_bodies raw context now db :
  bodies_nonempty db ->
  bodies_nonempty (final (createPromptTemplate raw context now) db).
Proof.
  intros B. unfold final, createPromptTemplate, defineAction.
  destruct (CreatePromptTemplate.schema raw) as [i|] eqn:S; [|exact B].
  unfold CreatePromptTemplate.handler, bind.
  destruct (context_cases context) as [[userId ->]|A].
  - run. unfold bodies_nonempty; simpl. intros r I.
    apply in_app_or in I. destruct I as [I|[<-|[]]]; [apply B, I|]. simpl.
    unfold CreatePromptTemplate.schema in S.
    destruct (z_string_min1 (CreatePromptTemplate.raw_title raw)); [|discriminate].
    destruct (z_string_min1 (CreatePromptTemplate.raw_template raw)) as [b|] eqn:Z;
      [|discriminate].
    inversion S; subst; simpl. apply (z_string_min1_some _ _ Z).
  - rewrite A. exact B.
Qed.

(** C9.  Creation keeps every template body non-empty, but the update
    schema accepts [template] equal to the empty string: whenever the row
    with the given key is accessible to the caller, the update that supplies
    only the empty [template] succeeds, returns that row with an empty body,
    and leaves it so in the table, so that not every body is non-empty
    afterwards. *)
Theorem updatePromptTemplate_admits_empty_body templateId userId now db target :
  template_with_id templateId db = Some target ->
  ~ owned_by_other target userId ->
  UpdatePromptTemplate.schema (blank_body_request templateId)
  = Some (blank_body_input templateId)
  /\ (forall raw context now' db0,
        bodies_nonempty db0 ->
        bodies_nonempty (final (createPromptTemplate raw context now') db0))
  /\ exists target' db',
       updatePromptTemplate (blank_body_request templateId) (signed_in userId) now db
       = (inr {| success := true; data := Some target' |}, db')
       /\ PromptTemplates.id target' = templateId
       /\ PromptTemplates.template target' = ""
       /\ In target' (rows (templates db'))
       /\ ~ bodies_nonempty db'.
Proof.
  intros F O. split; [reflexivity|].
  split; [apply createPromptTemplate_keeps_bodies|].
  set (patch := UpdatePromptTemplate.set (blank_body_input templateId) now).
  assert (I : In (patch target)
                (map (fun r => if PromptTemplates.id r =? templateId
                               then patch r else r) (rows (templates db)))).
  { apply find_some in F. destruct F as [I K].
    apply in_map_iff. exists target. rewrite K. auto. }
  assert (K : PromptTemplates.id target = templateId).
  { apply find_some in F. apply Z.eqb_eq, F. }
  rewrite (updatePromptTemplate_run userId now db (blank_body_request templateId)
             (blank_body_input templateId) eq_refl).
  change (UpdatePromptTemplate.id (blank_body_input templateId)) with templateId.
  rewrite (ensureTemplateAccessible_returns _ _ _ _ F O).
  cbv zeta. fold patch.
  pose proof (update_where_rows patch templateId (templates db)) as Rws.
  pose proof (update_where_returning patch templateId (templates db)) as Ret.
  destruct (update_where patch _ (templates db)) as [t returning].
  simpl in Rws, Ret. unfold template_with_id in F. rewrite F in Ret. simpl in Ret.
  exists (patch target), (set_templates t db). rewrite Ret. simpl. rewrite Rws.
  split; [reflexivity|]. split; [exact K|]. split; [reflexivity|].
  split; [exact I|].
  intros B. apply (B (patch target)); [|reflexivity].
  simpl. rewrite Rws. exact I.
Qed.

(** alice blanks the body of her template 1, whose body was not empty. *)
Lemma updatePromptTemplate_admits_empty_body_witness :
  bodies_nonempty Sample.db
  /\ exists target' db',
       updatePromptTemplate (blank_body_request 1) (signed_in "alice") 9000 Sample.db
       = (inr {| success := true; data := Some target' |}, db')
       /\ PromptTemplates.id target' = 1
       /\ PromptTemplates.template target' = ""
       /\ In target' (rows (templates db'))
       /\ ~ bodies_nonempty db'.
Proof.
  split.
  - intros r [<-|[<-|[<-|[]]]]; discriminate.
  - apply (updatePromptTemplate_admits_empty_body 1 "alice" 9000 Sample.db
             (Sample.lesson 1 (Some "alice") true)).
    + reflexivity.
    + intros (o & E & _ & N). inversion E; subst. apply N. reflexivity.
Defined.

(** ** C10: rows created through the API carry their user *)

Ltac parse_with schema raw :=
  let S := fresh "S" in
  destruct (schema raw) eqn:S; [|reflexivity].

(** A request without a signed-in user changes nothing. *)
Lemma serve_anonymous q context now db :
  (forall d, requireUser context d = (inl unauthorized, d)) ->
  serve q context now db = db.
Proof.
  intros A. destruct q; simpl; unfold final.
  - unfold createPromptTemplate, defineAction.
    parse_with CreatePromptTemplate.schema r.
    unfold CreatePromptTemplate.handler, bind. rewrite A. reflexivity.
  - unfold updatePromptTemplate, defineAction.
    parse_with UpdatePromptTemplate.schema r.
    unfold UpdatePromptTemplate.handler, bind. rewrite A. reflexivity.
  - unfold listPromptTemplates, defineAction, ListPromptTemplates.schema.
    unfold ListPromptTemplates.handler, bind. rewrite A. reflexivity.
  - unfold createGeneratedPrompt, defineAction.
    parse_with CreateGeneratedPrompt.schema r.
    unfold CreateGeneratedPrompt.handler, bind. rewrite A. reflexivity.
  - unfold listGeneratedPrompts, defineAction, ListGeneratedPrompts.schema.
    unfold ListGeneratedPrompts.handler, bind. rewrite A. reflexivity.
  - unfold addFavoritePrompt, defineAction.
    parse_with AddFavoritePrompt.schema r.
    unfold AddFavoritePrompt.handler, bind. rewrite A. reflexivity.
  - unfold removeFavoritePrompt, defineAction.
    parse_with RemoveFavoritePrompt.schema r.
    unfold RemoveFavoritePrompt.handler, bind. rewrite A. reflexivity.
  - unfold listFavoritePrompts, defineAction, ListFavoritePrompts.schema.
    unfold ListFavoritePrompts.handler, bind. rewrite A. reflexivity.
  - unfold createPromptJob, defineAction.
    parse_with CreatePromptJob.schema r.
    unfold CreatePromptJob.handler, bind. rewrite A. reflexivity.
  - unfold listPromptJobs, defineAction, ListPromptJobs.schema.
    unfold ListPromptJobs.handler, bind. rewrite A. reflexivity.
Qed.

(** What one request of a signed-in user does to each table: nothing, or
    what the one statement of its handler does. *)
Inductive effect (userId : string) (db : DB) : DB -> Prop :=
| effect_none : effect userId db db
| effect_template t :
    effect userId db (set_templates t db)
| effect_prompt p k :
    GeneratedPrompts.userId p = Some userId ->
    effect userId db
      (set_prompts {| rows := rows (prompts db) ++ [p]; seq := k |} db)
| effect_favorite f k :
    UserPromptFavorites.userId f = userId ->
    favorites_of userId (UserPromptFavorites.promptId f) db = [] ->
    effect userId db
      (set_favorites {| rows := rows (favorites db) ++ [f]; seq := k |} db)
| effect_unfavorite promptId :
    effect userId db
      (set_favorites
         {| rows := filter (fun f => negb (is_favorite userId promptId f))
                      (rows (favorites db));
            seq := seq (favorites db) |} db)
| effect_job j k :
    PromptJobs.userId j = Some userId ->
    effect userId db
      (set_jobs {| rows := rows (jobs db) ++ [j]; seq := k |} db).

Lemma serve_signed_in q userId now db :
  effect userId db (serve q (signed_in userId) now db).
Proof.
  destruct q; simpl; unfold final.
  - unfold createPromptTemplate, defineAction.
    destruct (CreatePromptTemplate.schema r); [|constructor].
    unfold CreatePromptTemplate.handler. run. constructor.
  - destruct (UpdatePromptTemplate.schema r) as [i|] eqn:S.
    + rewrite (updatePromptTemplate_run _ _ _ _ _ S).
      destruct (ensureTemplateAccessible _ _ _) as [[e|t] d]; [constructor|].
      cbv zeta. destruct (update_where _ _ _). simpl. constructor.
    + unfold updatePromptTemplate, defineAction. rewrite S. constructor.
  - rewrite listPromptTemplates_items. constructor.
  - destruct (CreateGeneratedPrompt.schema r) as [i|] eqn:S.
    + rewrite (createGeneratedPrompt_run _ _ _ _ _ S).
      destruct (CreateGeneratedPrompt.templateId i) as [t|];
        [destruct (ensureTemplateAccessible _ _ _) as [[e|t'] d]; [constructor|]|];
        simpl; constructor; reflexivity.
    + unfold createGeneratedPrompt, defineAction. rewrite S. constructor.
  - rewrite listGeneratedPrompts_run. constructor.
  - destruct r as [[promptId|]]; [|constructor].
    fold (favorite_request promptId). rewrite addFavoritePrompt_run.
    destruct (find _ _); [|constructor].
    destruct (hd_error (favorites_of userId promptId db)) eqn:H; [constructor|].
    simpl. apply effect_favorite; [reflexivity|]. simpl.
    destruct (favorites_of userId promptId db); [reflexivity|discriminate].
  - destruct r as [[promptId|]]; [|constructor].
    fold (unfavorite_request promptId). rewrite removeFavoritePrompt_run.
    cbv zeta. destruct (_ =? 0); simpl; constructor.
  - unfold listFavoritePrompts, ListFavoritePrompts.handler. run. constructor.
  - destruct (CreatePromptJob.schema r) as [i|] eqn:S.
    + rewrite (createPromptJob_run _ _ _ _ _ S).
      destruct (CreatePromptJob.templateId i) as [t|];
        [destruct (ensureTemplateAccessible _ _ _) as [[e|t'] d]; [constructor|]|];
        simpl; constructor; reflexivity.
    + unfold createPromptJob, defineAction. rewrite S. constructor.
  - unfold listPromptJobs, ListPromptJobs.handler. run. constructor.
Qed.

Definition job_of_user (userId : string) (j : PromptJobs.row) : bool :=
  match PromptJobs.userId j with
  | Some u => (u =? userId)%string
  | None => false
  end.

Lemma listPromptJobs_run raw userId now db :
  listPromptJobs raw (signed_in userId) now db
  = (inr {| success := true;
            data := listing (filter (job_of_user userId) (rows (jobs db))) |},
     db).
Proof.
  unfold listPromptJobs, ListPromptJobs.handler. run.
  unfold select_where. do 4 f_equal.
  apply filter_ext_eq. intros j. apply matches_eq_nullable.
Qed.

(** What the list actions show a signed-in user. *)
Definition listed_prompts (userId : string) (db : DB) : list GeneratedPrompts.row :=
  match outcome (listGeneratedPrompts None (signed_in userId) 0) db with
  | inr env => items (data env)
  | inl _ => []
  end.

Definition listed_jobs (userId : string) (db : DB) : list PromptJobs.row :=
  match outcome (listPromptJobs None (signed_in userId) 0) db with
  | inr env => items (data env)
  | inl _ => []
  end.

Lemma serve_cases q context now db :
  serve q context now db = db
  \/ exists userId,
       context = signed_in userId /\ effect userId db (serve q context now db).
Proof.
  destruct (context_cases context) as [[userId ->]|A].
  - right. exists userId. split; [reflexivity | apply serve_signed_in].
  - left. apply serve_anonymous, A.
Qed.

Lemma effect_prompts userId db db' p :
  effect userId db db' ->
  In p (rows (prompts db')) ->
  In p (rows (prompts db)) \/ GeneratedPrompts.userId p = Some userId.
Proof.
  intros E. destruct E; simpl; auto.
  intros I. apply in_app_or in I. destruct I as [I|[<-|[]]]; auto.
Qed.

Lemma effect_jobs userId db db' j :
  effect userId db db' ->
  In j (rows (jobs db')) ->
  In j (rows (jobs db)) \/ PromptJobs.userId j = Some userId.
Proof.
  intros E. destruct E; simpl; auto.
  intros I. apply in_app_or in I. destruct I as [I|[<-|[]]]; auto.
Qed.

Lemma serve_prompts q context now db p :
  In p (rows (prompts (serve q context now db))) ->
  In p (rows (prompts db))
  \/ exists userId,
       context = signed_in userId /\ GeneratedPrompts.userId p = Some userId.
Proof.
  destruct (serve_cases q context now db) as [->|(userId & -> & E)]; [auto|].
  intros I. destruct (effect_prompts _ _ _ _ E I); eauto.
Qed.

Lemma serve_jobs q context now db j :
  In j (rows (jobs (serve q context now db))) ->
  In j (rows (jobs db))
  \/ exists userId,
       context = signed_in userId /\ PromptJobs.userId j = Some userId.
Proof.
  destruct (serve_cases q context now db) as [->|(userId & -> & E)]; [auto|].
  intros I. destruct (effect_jobs _ _ _ _ E I); eauto.
Qed.

(** C10.  Serving a request adds to [GeneratedPrompts] and to [PromptJobs]
    only rows whose [userId] is the id of the signed-in caller.  Hence, in
    every database the API produces from the empty one, every generated
    prompt and every job has a non-null [userId], and is among the rows the
    list action shows that user. *)
Theorem created_rows_carry_user :
  (forall q context now db p,
      In p (rows (prompts (serve q context now db))) ->
      In p (rows (prompts db))
      \/ exists userId,
           context = signed_in userId /\ GeneratedPrompts.userId p = Some userId)
  /\ (forall q context now db j,
        In j (rows (jobs (serve q context now db))) ->
        In j (rows (jobs db))
        \/ exists userId,
             context = signed_in userId /\ PromptJobs.userId j = Some userId)
  /\ (forall db,
        reachable db ->
        (forall p, In p (rows (prompts db)) ->
           exists userId,
             GeneratedPrompts.userId p = Some userId
             /\ In p (listed_prompts userId db))
        /\ (forall j, In j (rows (jobs db)) ->
              exists userId,
                PromptJobs.userId j = Some userId
                /\ In j (listed_jobs userId db))).
Proof.
  split; [exact serve_prompts|]. split; [exact serve_jobs|].
  intros db R.
  assert (Users : (forall p, In p (rows (prompts db)) ->
                     exists u, GeneratedPrompts.userId p = Some u)
                  /\ (forall j, In j (rows (jobs db)) ->
                        exists u, PromptJobs.userId j = Some u)).
  { induction R as [|q context now db R [IHp IHj]].
    - split; intros ? [].
    - split.
      + intros p I. apply serve_prompts in I.
        destruct I as [I|(u & _ & U)]; eauto.
      + intros j I. apply serve_jobs in I.
        destruct I as [I|(u & _ & U)]; eauto. }
  destruct Users as [Up Uj]. split.
  - intros p I. destruct (Up p I) as [u U]. exists u. split; [exact U|].
    unfold listed_prompts, outcome. rewrite listGeneratedPrompts_run. simpl.
    unfold prompts_of. apply filter_In. split; [exact I|].
    unfold prompt_of_user. rewrite U, String.eqb_refl. reflexivity.
  - intros j I. destruct (Uj j I) as [u U]. exists u. split; [exact U|].
    unfold listed_jobs, outcome. rewrite listPromptJobs_run. simpl.
    apply filter_In. split; [exact I|].
    unfold job_of_user. rewrite U, String.eqb_refl. reflexivity.
Qed.

Definition bobs_prompt : GeneratedPrompts.row :=
  {| GeneratedPrompts.id := 1;
     GeneratedPrompts.templateId := None;
     GeneratedPrompts.userId := Some "bob";
     GeneratedPrompts.input := None;
     GeneratedPrompts.promptText := "Explain photosynthesis.";
     GeneratedPrompts.meta := None;
     GeneratedPrompts.createdAt := 5000 |}.

(** bob generates a prompt in the empty database and finds it in his list. *)
Lemma created_rows_carry_user_witness :
  exists userId,
    GeneratedPrompts.userId bobs_prompt = Some userId
    /\ In bobs_prompt
         (listed_prompts userId
            (serve (CreateGeneratedPromptReq (Sample.prompt_request None))
               (signed_in "bob") 5000 empty_db)).
Proof.
  destruct created_rows_carry_user as (_ & _ & H).
  apply (H (serve (CreateGeneratedPromptReq (Sample.prompt_request None))
              (signed_in "bob") 5000 empty_db)).
  - apply reachable_serve, reachable_empty.
  - simpl. auto.
Defined.

(** ** The favorites invariant *)

(** At most one favorite row per (user, prompt) pair. *)
Definition favorites_unique (db : DB) : Prop :=
  forall userId promptId,
    (List.length (favorites_of userId promptId db) <= 1)%nat.

Lemma filter_filter_length {A : Type} (f g : A -> bool) (l : list A) :
  (List.length (filter f (filter g l)) <= List.length (filter f l))%nat.
Proof.
  induction l as [|a l IH]; simpl; [lia|].
  destruct (g a), (f a) eqn:F; simpl; rewrite ?F; simpl; lia.
Qed.

Lemma effect_favorites_unique userId db db' :
  effect userId db db' -> favorites_unique db -> favorites_unique db'.
Proof.
  intros E U.
  destruct E as [|t|p' k Up|f k Uf N|promptId|j k Uj];
    try exact U; intros u p; unfold favorites_of; simpl.
  - rewrite filter_app, length_app. simpl.
    destruct (is_favorite u p f) eqn:F; simpl.
    + unfold is_favorite in F. apply andb_true_iff in F. destruct F as [P V].
      apply Z.eqb_eq in P. apply String.eqb_eq in V. subst.
      unfold favorites_of in N. rewrite N. simpl. lia.
    + specialize (U u p). unfold favorites_of in U. lia.
  - specialize (U u p). unfold favorites_of in U.
    pose proof (filter_filter_length (is_favorite u p)
                  (fun f => negb (is_favorite userId promptId f))
                  (rows (favorites db))). lia.
Qed.

(** Sequential use of the API keeps the favorites unique. *)
Lemma reachable_favorites_unique db : reachable db -> favorites_unique db.
Proof.
  induction 1 as [|q context now db R IH].
  - intros u p. simpl. lia.
  - destruct (serve_cases q context now db) as [->|(userId & -> & E)];
      [exact IH | exact (effect_favorites_unique _ _ _ E IH)].
Qed.


(** * Further properties of the actions *)

(** ** Requests without a signed-in user *)

(** The error a run ended with, if any. *)
Definition failure {A : Type} (r : (Error + A) * DB) : option Error :=
  match fst r with
  | inl e => Some e
  | inr _ => None
  end.

(** The error a request is answered with, if any. *)
Definition rejection (q : Request) (context : ActionAPIContext) (now : Date)
    (db : DB) : option Error :=
  match q with
  | CreatePromptTemplateReq r => failure (createPromptTemplate r context now db)
  | UpdatePromptTemplateReq r => failure (updatePromptTemplate r context now db)
  | ListPromptTemplatesReq r => failure (listPromptTemplates r context now db)
  | CreateGeneratedPromptReq r => failure (createGeneratedPrompt r context now db)
  | ListGeneratedPromptsReq r => failure (listGeneratedPrompts r context now db)
  | AddFavoritePromptReq r => failure (addFavoritePrompt r context now db)
  | RemoveFavoritePromptReq r => failure (removeFavoritePrompt r context now db)
  | ListFavoritePromptsReq r => failure (listFavoritePrompts r context now db)
  | CreatePromptJobReq r => failure (createPromptJob r context now db)
  | ListPromptJobsReq r => failure (listPromptJobs r context now db)
  end.

Definition is_some {A : Type} (a : option A) : bool :=
  match a with Some _ => true | None => false end.

(** The input of the request parses against the schema of its action. *)
Definition parses (q : Request) : bool :=
  match q with
  | CreatePromptTemplateReq r => is_some (CreatePromptTemplate.schema r)
  | UpdatePromptTemplateReq r => is_some (UpdatePromptTemplate.schema r)
  | ListPromptTemplatesReq r => is_some (ListPromptTemplates.schema r)
  | CreateGeneratedPromptReq r => is_some (CreateGeneratedPrompt.schema r)
  | ListGeneratedPromptsReq r => is_some (ListGeneratedPrompts.schema r)
  | AddFavoritePromptReq r => is_some (AddFavoritePrompt.schema r)
  | RemoveFavoritePromptReq r => is_some (RemoveFavoritePrompt.schema r)
  | ListFavoritePromptsReq r => is_some (ListFavoritePrompts.schema r)
  | CreatePromptJobReq r => is_some (CreatePromptJob.schema r)
  | ListPromptJobsReq r => is_some (ListPromptJobs.schema r)
  end.

Lemma rejection_anonymous q context now db :
  (forall d, requireUser context d = (inl unauthorized, d)) ->
  rejection q context now db
  = Some (if parses q then unauthorized else ActionInputError).
Proof.
  intros A. destruct q; simpl; unfold failure.
  - unfold createPromptTemplate, defineAction.
    destruct (CreatePromptTemplate.schema r); [|reflexivity].
    unfold CreatePromptTemplate.handler, bind. rewrite A. reflexivity.
  - unfold updatePromptTemplate, defineAction.
    destruct (UpdatePromptTemplate.schema r); [|reflexivity].
    unfold UpdatePromptTemplate.handler, bind. rewrite A. reflexivity.
  - unfold listPromptTemplates, defineAction, ListPromptTemplates.schema.
    unfold ListPromptTemplates.handler, bind. rewrite A. reflexivity.
  - unfold createGeneratedPrompt, defineAction.
    destruct (CreateGeneratedPrompt.schema r); [|reflexivity].
    unfold CreateGeneratedPrompt.handler, bind. rewrite A. reflexivity.
  - unfold listGeneratedPrompts, defineAction, ListGeneratedPrompts.schema.
    unfold ListGeneratedPrompts.handler, bind. rewrite A. reflexivity.
  - unfold addFavoritePrompt, defineAction.
    destruct (AddFavoritePrompt.schema r); [|reflexivity].
    unfold AddFavoritePrompt.handler, bind. rewrite A. reflexivity.
  - unfold removeFavoritePrompt, defineAction.
    destruct (RemoveFavoritePrompt.schema r); [|reflexivity].
    unfold RemoveFavoritePrompt.handler, bind. rewrite A. reflexivity.
  - unfold listFavoritePrompts, defineAction, ListFavoritePrompts.schema.
    unfold ListFavoritePrompts.handler, bind. rewrite A. reflexivity.
  - unfold createPromptJob, defineAction.
    destruct (CreatePromptJob.schema r); [|reflexivity].
    unfold CreatePromptJob.handler, bind. rewrite A. reflexivity.
  - unfold listPromptJobs, defineAction, ListPromptJobs.schema.
    unfold ListPromptJobs.handler, bind. rewrite A. reflexivity.
Qed.

(** X1.  A request made without a signed-in user (no [locals], or no
    [user] in them) is never served, whatever the action: the database is
    left as it was, and the answer is UNAUTHORIZED when the input parses
    and the input error when it does not. *)
Theorem anonymous_requests_rejected q context now db :
  (forall userId, context <> signed_in userId) ->
  serve q context now db = db
  /\ rejection q context now db
     = Some (if parses q then unauthorized else ActionInputError).
Proof.
  intros N. destruct (context_cases context) as [[userId E]|A].
  - exfalso. exact (N userId E).
  - split; [apply serve_anonymous, A | apply rejection_anonymous, A].
Qed.

(** A visitor without a session asks for alice's favorites to be removed. *)
Lemma anonymous_requests_rejected_witness :
  serve (RemoveFavoritePromptReq (unfavorite_request 1))
    {| locals := Some {| App.user := None |} |} 8000 starred_db
  = starred_db
  /\ rejection (RemoveFavoritePromptReq (unfavorite_request 1))
       {| locals := Some {| App.user := None |} |} 8000 starred_db
     = Some unauthorized.
Proof.
  apply (anonymous_requests_rejected
           (RemoveFavoritePromptReq (unfavorite_request 1))
           {| locals := Some {| App.user := None |} |} 8000 starred_db).
  intros userId E. discriminate E.
Defined.

(** ** Listing favorites and jobs *)

Definition favorite_of_user (userId : string) (f : UserPromptFavorites.row) : bool :=
  (UserPromptFavorites.userId f =? userId)%string.

Lemma listFavoritePrompts_run raw userId now db :
  listFavoritePrompts raw (signed_in userId) now db
  = (inr {| success := true;
            data := listing (filter (favorite_of_user userId)
                               (rows (favorites db))) |},
     db).
Proof.
  unfold listFavoritePrompts, ListFavoritePrompts.handler. run.
  unfold select_where. do 4 f_equal.
  apply filter_ext_eq. intros f. apply matches_eq_col.
Qed.

(** X2.  For a signed-in caller [listFavoritePrompts] answers, without
    changing the database, with the favorite rows whose [userId] is the
    caller's id: the table filtered by that test, so all of them, each once
    and in table order, and no other; [total] is their number.  Restricted
    to one prompt they are the caller's favorites of that prompt. *)
Theorem listFavoritePrompts_scoped raw userId now db :
  let found :=
    filter (fun f => (UserPromptFavorites.userId f =? userId)%string)
           (rows (favorites db)) in
  listFavoritePrompts raw (signed_in userId) now db
  = (inr {| success := true;
            data := {| items := found; total := Z.of_nat (List.length found) |} |},
     db)
  /\ (forall f, In f found
                <-> In f (rows (favorites db))
                    /\ UserPromptFavorites.userId f = userId)
  /\ (forall promptId,
        filter (fun f => UserPromptFavorites.promptId f =? promptId) found
        = favorites_of userId promptId db).
Proof.
  intros found. split; [apply listFavoritePrompts_run|]. split.
  - intros f. unfold found. rewrite filter_In, String.eqb_eq. reflexivity.
  - intros promptId. unfold found, favorites_of.
    induction (rows (favorites db)) as [|f l IH]; simpl; [reflexivity|].
    unfold is_favorite in *.
    destruct (UserPromptFavorites.userId f =? userId)%string; simpl;
      destruct (UserPromptFavorites.promptId f =? promptId); simpl;
      rewrite ?IH; reflexivity.
Qed.

(** X3.  For a signed-in caller [listPromptJobs] answers, without changing
    the database, with the job rows whose [userId] is the caller's id: the
    table filtered by that test, so all of them, each once and in table
    order, and no other; [total] is their number.  A job whose [userId] is
    null is shown to nobody. *)
Theorem listPromptJobs_scoped raw userId now db :
  let found :=
    filter (fun j => match PromptJobs.userId j with
                     | Some u => (u =? userId)%string
                     | None => false
                     end)
           (rows (jobs db)) in
  listPromptJobs raw (signed_in userId) now db
  = (inr {| success := true;
            data := {| items := found; total := Z.of_nat (List.length found) |} |},
     db)
  /\ forall j, In j found
               <-> In j (rows (jobs db)) /\ PromptJobs.userId j = Some userId.
Proof.
  intros found. split; [apply listPromptJobs_run|].
  intros j. unfold found. rewrite filter_In.
  destruct (PromptJobs.userId j) as [u|].
  - rewrite String.eqb_eq. split; intros [I E]; split; congruence.
  - split; intros [I E]; discriminate.
Qed.

(** ** What one request does, statement by statement *)

(** The rows the three creating actions insert. *)
Definition new_template (userId : string) (i : CreatePromptTemplate.input)
    (now : Date) (db : DB) : PromptTemplates.row :=
  {| PromptTemplates.id := next_id PromptTemplates.id (templates db);
     PromptTemplates.ownerId := Some userId;
     PromptTemplates.title := CreatePromptTemplate.title i;
     PromptTemplates.description := CreatePromptTemplate.description i;
     PromptTemplates.template := CreatePromptTemplate.template i;
     PromptTemplates.tags := CreatePromptTemplate.tags i;
     PromptTemplates.isActive := nullish (CreatePromptTemplate.isActive i) true;
     PromptTemplates.createdAt := now;
     PromptTemplates.updatedAt := now |}.

Definition new_prompt (userId : string) (i : CreateGeneratedPrompt.input)
    (now : Date) (db : DB) : GeneratedPrompts.row :=
  {| GeneratedPrompts.id := next_id GeneratedPrompts.id (prompts db);
     GeneratedPrompts.templateId := CreateGeneratedPrompt.templateId i;
     GeneratedPrompts.userId := Some userId;
     GeneratedPrompts.input := CreateGeneratedPrompt.input_ i;
     GeneratedPrompts.promptText := CreateGeneratedPrompt.promptText i;
     GeneratedPrompts.meta := CreateGeneratedPrompt.meta i;
     GeneratedPrompts.createdAt := now |}.

Definition new_job (userId : string) (i : CreatePromptJob.input)
    (now : Date) (db : DB) : PromptJobs.row :=
  {| PromptJobs.id := next_id PromptJobs.id (jobs db);
     PromptJobs.userId := Some userId;
     PromptJobs.templateId := CreatePromptJob.templateId i;
     PromptJobs.input := CreatePromptJob.input_ i;
     PromptJobs.output := CreatePromptJob.output i;
     PromptJobs.status := nullish (CreatePromptJob.status i) completed;
     PromptJobs.createdAt := now |}.

(** The template a row refers to, if any, passes the check for the user. *)
Definition template_usable (templateId : option Z) (userId : string) (db : DB)
    : Prop :=
  forall t, templateId = Some t ->
    exists r, template_with_id t db = Some r /\ ~ owned_by_other r userId.

(** The table [updatePromptTemplate] leaves. *)
Definition patch_templates (i : UpdatePromptTemplate.input) (now : Date)
    (db : DB) : table PromptTemplates.row :=
  {| rows := map (fun r => if PromptTemplates.id r =? UpdatePromptTemplate.id i
                           then UpdatePromptTemplate.set i now r else r)
                 (rows (templates db));
     seq := seq (templates db) |}.

(** The databases one request of a signed-in user can lead to, each with
    the facts its handler established before writing. *)
Inductive transition (userId : string) (now : Date) (db : DB) : DB -> Prop :=
| transition_none : transition userId now db db
| transition_template i :
    CreatePromptTemplate.title i <> "" ->
    CreatePromptTemplate.template i <> "" ->
    let r := new_template userId i now db in
    transition userId now db
      (set_templates {| rows := rows (templates db) ++ [r];
                        seq := PromptTemplates.id r |} db)
| transition_update i target :
    template_with_id (UpdatePromptTemplate.id i) db = Some target ->
    ~ owned_by_other target userId ->
    UpdatePromptTemplate.title i <> Some "" ->
    transition userId now db (set_templates (patch_templates i now db) db)
| transition_prompt i :
    template_usable (CreateGeneratedPrompt.templateId i) userId db ->
    CreateGeneratedPrompt.promptText i <> "" ->
    let p := new_prompt userId i now db in
    transition userId now db
      (set_prompts {| rows := rows (prompts db) ++ [p];
                      seq := GeneratedPrompts.id p |} db)
| transition_favorite promptId p :
    In p (rows (prompts db)) ->
    GeneratedPrompts.id p = promptId ->
    GeneratedPrompts.userId p = Some userId ->
    favorites_of userId promptId db = [] ->
    let f := new_favorite userId promptId now db in
    transition userId now db
      (set_favorites {| rows := rows (favorites db) ++ [f];
                        seq := UserPromptFavorites.id f |} db)
| transition_unfavorite promptId :
    transition userId now db
      (set_favorites
         {| rows := filter (fun f => negb (is_favorite userId promptId f))
                      (rows (favorites db));
            seq := seq (favorites db) |} db)
| transition_job i :
    template_usable (CreatePromptJob.templateId i) userId db ->
    let j := new_job userId i now db in
    transition userId now db
      (set_jobs {| rows := rows (jobs db) ++ [j];
                   seq := PromptJobs.id j |} db).

Lemma createPromptTemplate_run raw i userId now db :
  CreatePromptTemplate.schema raw = Some i ->
  createPromptTemplate raw (signed_in userId) now db
  = let r := new_template userId i now db in
    (inr {| success := true; data := Some r |},
     set_templates {| rows := rows (templates db) ++ [r];
                      seq := PromptTemplates.id r |} db).
Proof.
  intros S. unfold createPromptTemplate, defineAction. rewrite S.
  unfold CreatePromptTemplate.handler. run. reflexivity.
Qed.

Lemma CreatePromptTemplate_schema_some raw i :
  CreatePromptTemplate.schema raw = Some i ->
  CreatePromptTemplate.raw_title raw = Some (CreatePromptTemplate.title i)
  /\ CreatePromptTemplate.title i <> ""
  /\ CreatePromptTemplate.raw_template raw = Some (CreatePromptTemplate.template i)
  /\ CreatePromptTemplate.template i <> ""
  /\ CreatePromptTemplate.description i = CreatePromptTemplate.raw_description raw
  /\ CreatePromptTemplate.tags i = CreatePromptTemplate.raw_tags raw
  /\ CreatePromptTemplate.isActive i = CreatePromptTemplate.raw_isActive raw.
Proof.
  unfold CreatePromptTemplate.schema.
  destruct (z_string_min1 (CreatePromptTemplate.raw_title raw)) as [t|] eqn:T;
    [|discriminate].
  destruct (z_string_min1 (CreatePromptTemplate.raw_template raw)) as [b|] eqn:B;
    [|discriminate].
  apply z_string_min1_some in T, B. destruct T as [T Tn], B as [B Bn].
  intros E; inversion E; subst; simpl. auto 10.
Qed.

Lemma CreateGeneratedPrompt_schema_some raw i :
  CreateGeneratedPrompt.schema raw = Some i ->
  CreateGeneratedPrompt.raw_promptText raw = Some (CreateGeneratedPrompt.promptText i)
  /\ CreateGeneratedPrompt.promptText i <> ""
  /\ CreateGeneratedPrompt.templateId i = CreateGeneratedPrompt.raw_templateId raw
  /\ CreateGeneratedPrompt.input_ i = CreateGeneratedPrompt.raw_input raw
  /\ CreateGeneratedPrompt.meta i = CreateGeneratedPrompt.raw_meta raw.
Proof.
  unfold CreateGeneratedPrompt.schema.
  destruct (z_string_min1 (CreateGeneratedPrompt.raw_promptText raw)) as [t|] eqn:T;
    [|discriminate].
  apply z_string_min1_some in T. destruct T as [T Tn].
  intros E; inversion E; subst; simpl. auto.
Qed.

Lemma UpdatePromptTemplate_schema_title raw i :
  UpdatePromptTemplate.schema raw = Some i ->
  UpdatePromptTemplate.title i <> Some "".
Proof.
  intros S. destruct (UpdatePromptTemplate_schema_some _ _ S) as (_ & T & _).
  rewrite T. intros E. unfold UpdatePromptTemplate.schema in S.
  rewrite E in S. simpl in S.
  destruct (UpdatePromptTemplate.raw_id raw); discriminate.
Qed.

Lemma update_where_table (patch : PromptTemplates.row -> PromptTemplates.row)
    templateId t :
  fst (update_where patch
         (sql_eq Z.eqb (col PromptTemplates.id) (Some templateId)) t)
  = {| rows := map (fun r => if PromptTemplates.id r =? templateId
                             then patch r else r) (rows t);
       seq := seq t |}.
Proof.
  unfold update_where; simpl. f_equal. apply map_ext. intros r.
  rewrite matches_eq_col. reflexivity.
Qed.

Lemma template_usable_check templateId userId db :
  template_usable (Some templateId) userId db
  <-> exists r, ensureTemplateAccessible templateId userId db = (inr r, db).
Proof.
  split.
  - intros H. destruct (H templateId eq_refl) as (r & F & O).
    exists r. apply ensureTemplateAccessible_returns; assumption.
  - intros [r E] t T. inversion T; subst.
    apply ensureTemplateAccessible_ok in E. eauto.
Qed.

Lemma template_usable_none userId db : template_usable None userId db.
Proof. intros t T. discriminate. Qed.

Lemma template_usable_of_check templateId userId db r d :
  ensureTemplateAccessible templateId userId db = (inr r, d) ->
  template_usable (Some templateId) userId db.
Proof.
  intros E t T. inversion T; subst.
  apply ensureTemplateAccessible_ok in E. eauto.
Qed.

Lemma serve_transition q userId now db :
  transition userId now db (serve q (signed_in userId) now db).
Proof.
  destruct q; simpl; unfold final.
  - destruct (CreatePromptTemplate.schema r) as [i|] eqn:S.
    + rewrite (createPromptTemplate_run _ _ _ _ _ S). simpl.
      apply CreatePromptTemplate_schema_some in S.
      apply transition_template; apply S.
    + unfold createPromptTemplate, defineAction. rewrite S. constructor.
  - destruct (UpdatePromptTemplate.schema r) as [i|] eqn:S.
    + rewrite (updatePromptTemplate_run _ _ _ _ _ S).
      destruct (ensureTemplateAccessible _ _ _) as [[e|t] d] eqn:G; [constructor|].
      apply ensureTemplateAccessible_ok in G. destruct G as [F O].
      cbv zeta.
      pose proof (update_where_table (UpdatePromptTemplate.set i now)
                    (UpdatePromptTemplate.id i) (templates db)) as W.
      destruct (update_where _ _ _) as [t' returning]. simpl in W. subst t'.
      simpl. apply (transition_update _ _ _ i t F O).
      apply (UpdatePromptTemplate_schema_title _ _ S).
    + unfold updatePromptTemplate, defineAction. rewrite S. constructor.
  - rewrite listPromptTemplates_items. constructor.
  - destruct (CreateGeneratedPrompt.schema r) as [i|] eqn:S.
    + rewrite (createGeneratedPrompt_run _ _ _ _ _ S).
      apply CreateGeneratedPrompt_schema_some in S.
      destruct S as (_ & Pn & _).
      destruct (CreateGeneratedPrompt.templateId i) as [t|] eqn:T.
      * destruct (ensureTemplateAccessible _ _ _) as [[e|t'] d] eqn:G;
          [constructor|].
        pose proof (transition_prompt userId now db i) as X.
        cbv zeta in X. unfold new_prompt in X. rewrite T in X.
        simpl. apply X; [|exact Pn].
        apply (template_usable_of_check _ _ _ _ _ G).
      * pose proof (transition_prompt userId now db i) as X.
        cbv zeta in X. unfold new_prompt in X. rewrite T in X.
        simpl. apply X; [|exact Pn].
        apply template_usable_none.
    + unfold createGeneratedPrompt, defineAction. rewrite S. constructor.
  - rewrite listGeneratedPrompts_run. constructor.
  - destruct r as [[promptId|]]; [|constructor].
    fold (favorite_request promptId). rewrite addFavoritePrompt_run.
    destruct (find _ _) as [p|] eqn:F; [|constructor].
    apply own_prompt_sound in F. destruct F as (I & K & U).
    destruct (hd_error (favorites_of userId promptId db)) eqn:H; [constructor|].
    simpl. apply (transition_favorite _ _ _ promptId p I K U).
    destruct (favorites_of userId promptId db); [reflexivity|discriminate].
  - destruct r as [[promptId|]]; [|constructor].
    fold (unfavorite_request promptId). rewrite removeFavoritePrompt_run.
    cbv zeta. destruct (_ =? 0); simpl; constructor.
  - rewrite listFavoritePrompts_run. constructor.
  - destruct (CreatePromptJob.schema r) as [i|] eqn:S.
    + rewrite (createPromptJob_run _ _ _ _ _ S).
      destruct (CreatePromptJob.templateId i) as [t|] eqn:T.
      * destruct (ensureTemplateAccessible _ _ _) as [[e|t'] d] eqn:G;
          [constructor|].
        pose proof (transition_job userId now db i) as X.
        cbv zeta in X. unfold new_job in X. rewrite T in X.
        simpl. apply X.
        apply (template_usable_of_check _ _ _ _ _ G).
      * pose proof (transition_job userId now db i) as X.
        cbv zeta in X. unfold new_job in X. rewrite T in X.
        simpl. apply X.
        apply template_usable_none.
    + unfold createPromptJob, defineAction. rewrite S. constructor.
  - rewrite listPromptJobs_run. constructor.
Qed.

(** Induction over the requests served since the empty database. *)
Lemma reachable_invariant (P : DB -> Prop) :
  P empty_db ->
  (forall userId now db db',
      reachable db -> P db -> transition userId now db db' -> P db') ->
  forall db, reachable db -> P db.
Proof.
  intros P0 Step db R. induction R as [|q context now db R IH]; [exact P0|].
  destruct (context_cases context) as [[userId ->]|A].
  - exact (Step userId now db _ R IH (serve_transition q userId now db)).
  - rewrite (serve_anonymous _ _ _ _ A). exact IH.
Qed.

(** ** Creating a job *)

Definition status_name (s : JobStatus) : string :=
  match s with
  | pending => "pending"
  | completed => "completed"
  | failed => "failed"
  end.

Lemma z_status_optional_some s o :
  z_status_optional s = Some o -> s = option_map status_name o.
Proof.
  destruct s as [s|]; simpl.
  - destruct (s =? "pending")%string eqn:P;
      [apply String.eqb_eq in P; intros E; inversion E; subst; reflexivity|].
    destruct (s =? "completed")%string eqn:C;
      [apply String.eqb_eq in C; intros E; inversion E; subst; reflexivity|].
    destruct (s =? "failed")%string eqn:F;
      [apply String.eqb_eq in F; intros E; inversion E; subst; reflexivity|].
    discriminate.
  - intros E; inversion E; reflexivity.
Qed.

Lemma CreatePromptJob_schema_some raw i :
  CreatePromptJob.schema raw = Some i ->
  CreatePromptJob.raw_status raw = option_map status_name (CreatePromptJob.status i)
  /\ CreatePromptJob.templateId i = CreatePromptJob.raw_templateId raw
  /\ CreatePromptJob.input_ i = CreatePromptJob.raw_input raw
  /\ CreatePromptJob.output i = CreatePromptJob.raw_output raw.
Proof.
  unfold CreatePromptJob.schema.
  destruct (z_status_optional (CreatePromptJob.raw_status raw)) as [o|] eqn:Z;
    [|discriminate].
  apply z_status_optional_some in Z.
  intros E; inversion E; subst; simpl. auto.
Qed.

(** X4.  [createPromptJob] answers with the input error, writing nothing,
    when [status] is a string other than pending, completed or failed.  When
    it succeeds the caller is signed in, the template named by [templateId],
    if any, passed the accessibility check, and exactly one row was appended
    to [PromptJobs], the one returned: it carries the caller's id, the
    supplied [templateId], [input] and [output], the supplied status or, when
    none was supplied, completed, and the time of the call; no other table
    changed.  A signed-in caller who names no template and no status always
    succeeds. *)
Theorem createPromptJob_contract raw context now db :
  (forall s, CreatePromptJob.raw_status raw = Some s ->
             s <> "pending" -> s <> "completed" -> s <> "failed" ->
             createPromptJob raw context now db = (inl ActionInputError, db))
  /\ (forall env db',
        createPromptJob raw context now db = (inr env, db') ->
        exists userId j,
          context = signed_in userId
          /\ env = {| success := true; data := Some j |}
          /\ rows (jobs db') = rows (jobs db) ++ [j]
          /\ template_usable (CreatePromptJob.raw_templateId raw) userId db
          /\ PromptJobs.userId j = Some userId
          /\ PromptJobs.templateId j = CreatePromptJob.raw_templateId raw
          /\ PromptJobs.input j = CreatePromptJob.raw_input raw
          /\ PromptJobs.output j = CreatePromptJob.raw_output raw
          /\ (CreatePromptJob.raw_status raw = None -> PromptJobs.status j = completed)
          /\ (forall s, CreatePromptJob.raw_status raw = Some s ->
                        status_name (PromptJobs.status j) = s)
          /\ PromptJobs.createdAt j = now
          /\ templates db' = templates db
          /\ prompts db' = prompts db
          /\ favorites db' = favorites db)
  /\ (forall userId,
        context = signed_in userId ->
        CreatePromptJob.raw_templateId raw = None ->
        CreatePromptJob.raw_status raw = None ->
        exists env db', createPromptJob raw context now db = (inr env, db')).
Proof.
  split; [|split].
  - intros s S P C F. unfold createPromptJob, defineAction, CreatePromptJob.schema.
    rewrite S. simpl.
    apply String.eqb_neq in P, C, F. rewrite P, C, F. reflexivity.
  - intros env db'.
    destruct (CreatePromptJob.schema raw) as [i|] eqn:S.
    2:{ unfold createPromptJob, defineAction. rewrite S. discriminate. }
    destruct (context_cases context) as [[userId ->]|A].
    2:{ unfold createPromptJob, defineAction. rewrite S.
        unfold CreatePromptJob.handler, bind. rewrite A. discriminate. }
    rewrite (createPromptJob_run _ _ _ _ _ S).
    destruct (CreatePromptJob_schema_some _ _ S) as (St & T & I & O).
    intros E.
    assert (H : template_usable (CreatePromptJob.templateId i) userId db
                /\ env = {| success := true;
                            data := Some (new_job userId i now db) |}
                /\ db' = set_jobs
                           {| rows := rows (jobs db) ++ [new_job userId i now db];
                              seq := PromptJobs.id (new_job userId i now db) |} db).
    { revert E. unfold new_job.
      destruct (CreatePromptJob.templateId i) as [t|] eqn:Ti.
      - destruct (ensureTemplateAccessible t userId db) as [[e|r] d] eqn:G;
          [discriminate|].
        simpl. intros E; inversion E; subst; clear E.
        split; [apply (template_usable_of_check _ _ _ _ _ G) | auto].
      - simpl. intros E; inversion E; subst; clear E.
        split; [apply template_usable_none | auto]. }
    destruct H as (U & -> & ->).
    exists userId, (new_job userId i now db). simpl.
    rewrite <- T, <- I, <- O, St.
    repeat split; auto.
    + destruct (CreatePromptJob.status i); [discriminate | reflexivity].
    + intros s Es. destruct (CreatePromptJob.status i); inversion Es; reflexivity.
  - intros userId -> T N.
    assert (S : CreatePromptJob.schema raw
                = Some {| CreatePromptJob.templateId := None;
                          CreatePromptJob.input_ := CreatePromptJob.raw_input raw;
                          CreatePromptJob.output := CreatePromptJob.raw_output raw;
                          CreatePromptJob.status := None |}).
    { unfold CreatePromptJob.schema. rewrite N, T. reflexivity. }
    rewrite (createPromptJob_run _ _ _ _ _ S). simpl. eauto.
Qed.

Definition job_request (templateId : option Z) (status : option string)
    : CreatePromptJob.raw :=
  {| CreatePromptJob.raw_templateId := templateId;
     CreatePromptJob.raw_input := Some [("topic", JStr "fractions")];
     CreatePromptJob.raw_output := None;
     CreatePromptJob.raw_status := status |}.

(** A job with the status "done" is refused; one without status is
    recorded. *)
Lemma createPromptJob_contract_witness :
  createPromptJob (job_request None (Some "done")) (signed_in "alice") 4000 Sample.db
  = (inl ActionInputError, Sample.db)
  /\ exists env db',
       createPromptJob (job_request None None) (signed_in "alice") 4000 Sample.db
       = (inr env, db').
Proof.
  split.
  - destruct (createPromptJob_contract (job_request None (Some "done"))
                (signed_in "alice") 4000 Sample.db) as (H & _).
    apply (H "done");
      [reflexivity | discriminate | discriminate | discriminate].
  - destruct (createPromptJob_contract (job_request None None)
                (signed_in "alice") 4000 Sample.db) as (_ & _ & H).
    apply (H "alice"); reflexivity.
Defined.

(** ** What no request does *)

Lemma serve_change q context now db :
  serve q context now db = db
  \/ exists userId,
       context = signed_in userId
       /\ transition userId now db (serve q context now db).
Proof.
  destruct (context_cases context) as [[userId ->]|A].
  - right. exists userId. split; [reflexivity | apply serve_transition].
  - left. apply serve_anonymous, A.
Qed.

(** X5.  No request modifies or deletes a generated prompt or a job: after
    any request, by anyone, each of the two tables holds the rows it held,
    in the same order and unchanged (a job keeps the status it was created
    with), followed by at most one new row. *)
Theorem records_are_append_only q context now db :
  (rows (prompts (serve q context now db)) = rows (prompts db)
   \/ exists p,
        rows (prompts (serve q context now db)) = rows (prompts db) ++ [p])
  /\ (rows (jobs (serve q context now db)) = rows (jobs db)
      \/ exists j,
           rows (jobs (serve q context now db)) = rows (jobs db) ++ [j]).
Proof.
  destruct (serve_change q context now db) as [->|(userId & _ & T)]; [auto|].
  destruct T; simpl; eauto.
Qed.

(** What identifies a template: its key, its owner and its creation time. *)
Definition identity (r : PromptTemplates.row) : Z * option string * Date :=
  (PromptTemplates.id r, PromptTemplates.ownerId r, PromptTemplates.createdAt r).

Lemma patch_templates_identity i now db :
  map identity (rows (patch_templates i now db))
  = map identity (rows (templates db)).
Proof.
  unfold patch_templates; simpl. rewrite map_map. apply map_ext.
  intros r. destruct (PromptTemplates.id r =? UpdatePromptTemplate.id i);
    reflexivity.
Qed.

(** X6.  No request deletes a template, changes the key, the owner or the
    creation time of one, or reorders the table: after any request the
    templates are, by key, owner and creation time, those of before, or
    those of before followed by one new row owned by the caller. *)
Theorem templates_keep_identity q context now db :
  map identity (rows (templates (serve q context now db)))
  = map identity (rows (templates db))
  \/ exists userId r,
       context = signed_in userId
       /\ PromptTemplates.ownerId r = Some userId
       /\ rows (templates (serve q context now db)) = rows (templates db) ++ [r].
Proof.
  destruct (serve_change q context now db) as [->|(userId & -> & T)]; [auto|].
  destruct T; simpl; auto.
  - right. exists userId, r. auto.
  - left. apply (patch_templates_identity i now db).
Qed.

(** Every template has a non-empty title. *)
Definition titles_nonempty (db : DB) : Prop :=
  forall r, In r (rows (templates db)) -> PromptTemplates.title r <> "".

(** X7.  Unlike the body, the title of a template cannot be blanked: both
    the creation and the update schema require a supplied [title] to be
    non-empty, so every request keeps all titles non-empty. *)
Theorem titles_stay_nonempty q context now db :
  titles_nonempty db -> titles_nonempty (serve q context now db).
Proof.
  intros N.
  destruct (serve_change q context now db) as [->|(userId & _ & T)]; [exact N|].
  destruct T as [|i Ti Tb r|i target F O Ti| | | |]; try exact N.
  - intros r' I. simpl in I. apply in_app_or in I.
    destruct I as [I|[<-|[]]]; [apply N, I | exact Ti].
  - intros r' I. simpl in I. apply in_map_iff in I.
    destruct I as (r & <- & I). specialize (N r I).
    destruct (PromptTemplates.id r =? UpdatePromptTemplate.id i); [|exact N].
    simpl. destruct (UpdatePromptTemplate.title i) as [t|]; simpl; [|exact N].
    intros ->. apply Ti. reflexivity.
Qed.

(** alice tries to blank the title of her template; the titles stay. *)
Lemma titles_stay_nonempty_witness :
  titles_nonempty
    (serve (UpdatePromptTemplateReq (retitle_request (Some 1) (Some "")))
       (signed_in "alice") 9000 Sample.db).
Proof.
  apply (titles_stay_nonempty
           (UpdatePromptTemplateReq (retitle_request (Some 1) (Some "")))
           (signed_in "alice") 9000 Sample.db).
  intros r [<-|[<-|[<-|[]]]]; discriminate.
Defined.

(** ** Primary keys *)

(** In each table no two rows have the same [id]. *)
Definition keys_unique (db : DB) : Prop :=
  NoDup (map PromptTemplates.id (rows (templates db)))
  /\ NoDup (map GeneratedPrompts.id (rows (prompts db)))
  /\ NoDup (map UserPromptFavorites.id (rows (favorites db)))
  /\ NoDup (map PromptJobs.id (rows (jobs db))).

Section Keys.
Context {R : Type}.
Variable key : R -> Z.

Lemma largest_key_above (l : list R) (b : Z) :
  b <= fold_right (fun x acc => Z.max (key x) acc) b l
  /\ forall r, In r l ->
       key r <= fold_right (fun x acc => Z.max (key x) acc) b l.
Proof.
  induction l as [|a l [IHb IHl]]; simpl.
  - split; [lia | intros r []].
  - split; [lia|]. intros r [<-|I]; [lia|]. specialize (IHl r I). lia.
Qed.

Lemma next_id_above (t : table R) r :
  In r (rows t) -> key r < next_id key t.
Proof.
  unfold next_id. destruct (rows t) as [|a l]; [intros []|].
  destruct (largest_key_above l (key a)) as [Hb Hl].
  intros [<-|I]; [lia|]. specialize (Hl r I). lia.
Qed.

Lemma NoDup_keys_insert (t : table R) (x : R) :
  key x = next_id key t ->
  NoDup (map key (rows t)) -> NoDup (map key (rows t ++ [x])).
Proof.
  intros K N. rewrite map_app. simpl.
  apply NoDup_app; [exact N | constructor; [intros [] | constructor] |].
  intros k I [<-|[]]. apply in_map_iff in I. destruct I as (r & E & I).
  apply (next_id_above t) in I. lia.
Qed.

Lemma NoDup_keys_filter (f : R -> bool) (l : list R) :
  NoDup (map key l) -> NoDup (map key (filter f l)).
Proof.
  induction l as [|a l IH]; simpl; [auto|].
  intros N. inversion N as [|? ? Na Nl]; subst.
  destruct (f a); simpl; [|auto]. constructor; [|auto].
  intros I. apply Na. apply in_map_iff in I. destruct I as (r & E & I).
  apply filter_In in I. apply in_map_iff. exists r. tauto.
Qed.
End Keys.

Lemma patch_templates_keys i now db :
  map PromptTemplates.id (rows (patch_templates i now db))
  = map PromptTemplates.id (rows (templates db)).
Proof.
  unfold patch_templates; simpl. rewrite map_map. apply map_ext.
  intros r. destruct (PromptTemplates.id r =? UpdatePromptTemplate.id i);
    reflexivity.
Qed.

Lemma transition_keys_unique userId now db db' :
  transition userId now db db' -> keys_unique db -> keys_unique db'.
Proof.
  intros T (Kt & Kp & Kf & Kj).
  destruct T; unfold keys_unique; simpl; repeat split; auto.
  - apply NoDup_keys_insert; [reflexivity | exact Kt].
  - rewrite <- (patch_templates_keys i now db) in Kt. exact Kt.
  - apply NoDup_keys_insert; [reflexivity | exact Kp].
  - apply NoDup_keys_insert; [reflexivity | exact Kf].
  - apply NoDup_keys_filter. exact Kf.
  - apply NoDup_keys_insert; [reflexivity | exact Kj].
Qed.

Lemma serve_keys_unique q context now db :
  keys_unique db -> keys_unique (serve q context now db).
Proof.
  intros K.
  destruct (serve_change q context now db) as [->|(userId & _ & T)]; [exact K|].
  exact (transition_keys_unique _ _ _ _ T K).
Qed.

Lemma reachable_keys_unique db : reachable db -> keys_unique db.
Proof.
  induction 1 as [|q context now db R IH].
  - repeat split; constructor.
  - apply serve_keys_unique, IH.
Qed.

(** X8.  The primary keys stay primary: a request served on a database in
    which no table holds two rows with the same [id] leaves such a database,
    the key of an inserted row being larger than every key in its table; so
    every database the API produces from the empty one has unique keys. *)
Theorem keys_stay_unique :
  (forall q context now db,
      keys_unique db -> keys_unique (serve q context now db))
  /\ (forall db, reachable db -> keys_unique db).
Proof.
  split; [exact serve_keys_unique | exact reachable_keys_unique].
Qed.

(** Keys are unique in the sample database and stay so when bob adds a
    prompt. *)
Lemma keys_stay_unique_witness :
  keys_unique
    (serve (CreateGeneratedPromptReq (Sample.prompt_request None))
       (signed_in "bob") 5000 Sample.db).
Proof.
  destruct keys_stay_unique as (H & _). apply H.
  repeat split; simpl; repeat constructor; simpl; intuition discriminate.
Defined.

(** ** Templates: who sees and who may write *)

(** What [listPromptTemplates] shows a signed-in user. *)
Definition shown_templates (userId : string) (raw : ListPromptTemplates.raw)
    (db : DB) : list PromptTemplates.row :=
  match outcome (listPromptTemplates raw (signed_in userId) 0) db with
  | inr env => items (data env)
  | inl _ => []
  end.

Definition include_inactive : ListPromptTemplates.raw :=
  Some {| ListPromptTemplates.raw_includeInactive := Some true |}.

Lemma shown_templates_iff userId raw db r :
  In r (shown_templates userId raw db)
  <-> In r (rows (templates db))
      /\ PromptTemplates.ownerId r = Some userId
      /\ (includeInactive_of raw = true \/ PromptTemplates.isActive r = true).
Proof.
  unfold shown_templates, outcome. rewrite listPromptTemplates_items. simpl.
  rewrite filter_In. unfold listed_template.
  rewrite andb_true_iff, orb_true_iff.
  destruct (PromptTemplates.ownerId r) as [o|].
  - rewrite String.eqb_eq. split; intros (I & O & A); repeat split; congruence.
  - split; intros (I & O & A); discriminate.
Qed.

Lemma find_key_unique (l : list PromptTemplates.row) r :
  NoDup (map PromptTemplates.id l) ->
  In r l ->
  find (fun x => PromptTemplates.id x =? PromptTemplates.id r) l = Some r.
Proof.
  induction l as [|a l IH]; simpl; [intros _ []|].
  intros N I. inversion N as [|? ? Na Nl]; subst.
  destruct I as [->|I]; [rewrite Z.eqb_refl; reflexivity|].
  destruct (PromptTemplates.id a =? PromptTemplates.id r) eqn:E; [|auto].
  exfalso. apply Na. apply Z.eqb_eq in E. rewrite E. apply in_map, I.
Qed.

Lemma own_template_accessible r userId :
  PromptTemplates.ownerId r = Some userId -> ~ owned_by_other r userId.
Proof. intros O (o & E & _ & N). congruence. Qed.

Lemma ownerless_template_accessible r userId :
  PromptTemplates.ownerId r = None -> ~ owned_by_other r userId.
Proof. intros O (o & E & _). congruence. Qed.

(** X9.  Whatever [listPromptTemplates] shows a caller, the caller may use:
    when the template keys are unique, the accessibility check on the key of
    a listed row returns that very row, for every listing option. *)
Theorem listed_templates_accessible userId raw db r :
  NoDup (map PromptTemplates.id (rows (templates db))) ->
  In r (shown_templates userId raw db) ->
  ensureTemplateAccessible (PromptTemplates.id r) userId db = (inr r, db).
Proof.
  intros N I. apply shown_templates_iff in I. destruct I as (I & O & _).
  apply ensureTemplateAccessible_returns.
  - apply find_key_unique; assumption.
  - apply own_template_accessible, O.
Qed.

(** alice may use the template her listing shows. *)
Lemma listed_templates_accessible_witness :
  ensureTemplateAccessible 1 "alice" Sample.db
  = (inr (Sample.lesson 1 (Some "alice") true), Sample.db).
Proof.
  apply (listed_templates_accessible "alice" None Sample.db
           (Sample.lesson 1 (Some "alice") true)).
  - simpl. repeat constructor; simpl; intuition discriminate.
  - simpl. auto.
Defined.

Lemma updatePromptTemplate_succeeds raw i userId now db target :
  UpdatePromptTemplate.schema raw = Some i ->
  template_with_id (UpdatePromptTemplate.id i) db = Some target ->
  ~ owned_by_other target userId ->
  updatePromptTemplate raw (signed_in userId) now db
  = (inr {| success := true;
            data := Some (UpdatePromptTemplate.set i now target) |},
     set_templates (patch_templates i now db) db).
Proof.
  intros S F O. rewrite (updatePromptTemplate_run _ _ _ _ _ S).
  rewrite (ensureTemplateAccessible_returns _ _ _ _ F O). cbv zeta.
  pose proof (update_where_table (UpdatePromptTemplate.set i now)
                (UpdatePromptTemplate.id i) (templates db)) as W.
  pose proof (update_where_returning (UpdatePromptTemplate.set i now)
                (UpdatePromptTemplate.id i) (templates db)) as Ret.
  destruct (update_where _ _ _) as [t returning]. simpl in W, Ret. subst t.
  unfold template_with_id in F. rewrite F in Ret. simpl in Ret. rewrite Ret.
  reflexivity.
Qed.

Lemma patched_row_present i now db target :
  template_with_id (UpdatePromptTemplate.id i) db = Some target ->
  In (UpdatePromptTemplate.set i now target) (rows (patch_templates i now db)).
Proof.
  intros F. apply find_some in F. destruct F as [I K].
  unfold patch_templates; simpl. apply in_map_iff. exists target.
  rewrite K. auto.
Qed.

(** X10.  An ownerless template is open to every signed-in caller for
    writing, although no caller's listing shows it: any update of it that
    parses succeeds, returning and storing the patched row, and a generated
    prompt may refer to it; yet the row is in nobody's list. *)
Theorem ownerless_templates_open_to_all raw i userId now db target :
  UpdatePromptTemplate.schema raw = Some i ->
  template_with_id (UpdatePromptTemplate.id i) db = Some target ->
  PromptTemplates.ownerId target = None ->
  updatePromptTemplate raw (signed_in userId) now db
  = (inr {| success := true;
            data := Some (UpdatePromptTemplate.set i now target) |},
     set_templates (patch_templates i now db) db)
  /\ In (UpdatePromptTemplate.set i now target)
        (rows (templates (set_templates (patch_templates i now db) db)))
  /\ template_usable (Some (UpdatePromptTemplate.id i)) userId db
  /\ forall anyone options,
       ~ In target (shown_templates anyone options db)
       /\ ~ In (UpdatePromptTemplate.set i now target)
              (shown_templates anyone options
                 (set_templates (patch_templates i now db) db)).
Proof.
  intros S F O.
  pose proof (ownerless_template_accessible target userId O) as A.
  split; [apply (updatePromptTemplate_succeeds _ _ _ _ _ _ S F A)|].
  split; [apply patched_row_present, F|].
  split; [intros t T; inversion T; subst; eauto|].
  intros anyone options.
  split; intros I; apply shown_templates_iff in I; destruct I as (_ & E & _).
  - congruence.
  - simpl in E. congruence.
Qed.

(** bob rewrites the shared template 2. *)
Lemma ownerless_templates_open_to_all_witness :
  outcome (updatePromptTemplate (retitle_request (Some 2) (Some "Mine"))
             (signed_in "bob") 9000) Sample.db
  = inr {| success := true;
           data := Some {| PromptTemplates.id := 2;
                           PromptTemplates.ownerId := None;
                           PromptTemplates.title := "Mine";
                           PromptTemplates.description := None;
                           PromptTemplates.template :=
                             "Introduce {topic} to {grade} students.";
                           PromptTemplates.tags := Some "intro";
                           PromptTemplates.isActive := true;
                           PromptTemplates.createdAt := 1000;
                           PromptTemplates.updatedAt := 9000 |} |}.
Proof.
  destruct (ownerless_templates_open_to_all
              (retitle_request (Some 2) (Some "Mine"))
              {| UpdatePromptTemplate.id := 2;
                 UpdatePromptTemplate.title := Some "Mine";
                 UpdatePromptTemplate.description := None;
                 UpdatePromptTemplate.template := None;
                 UpdatePromptTemplate.tags := None;
                 UpdatePromptTemplate.isActive := None |}
              "bob" 9000 Sample.db (Sample.lesson 2 None true)
              eq_refl eq_refl eq_refl) as (H & _).
  unfold outcome. rewrite H. reflexivity.
Defined.

Definition activation_request (templateId : Z) (active : bool)
    : UpdatePromptTemplate.raw :=
  {| UpdatePromptTemplate.raw_id := Some templateId;
     UpdatePromptTemplate.raw_title := None;
     UpdatePromptTemplate.raw_description := None;
     UpdatePromptTemplate.raw_template := None;
     UpdatePromptTemplate.raw_tags := None;
     UpdatePromptTemplate.raw_isActive := Some active |}.

Definition activation_input (templateId : Z) (active : bool)
    : UpdatePromptTemplate.input :=
  {| UpdatePromptTemplate.id := templateId;
     UpdatePromptTemplate.title := None;
     UpdatePromptTemplate.description := None;
     UpdatePromptTemplate.template := None;
     UpdatePromptTemplate.tags := None;
     UpdatePromptTemplate.isActive := Some active |}.

(** X11.  When the owner of a template updates it with [isActive] false,
    the update succeeds; afterwards the owner's default listing shows no row
    with that key, while the listing with [includeInactive] still shows the
    row, deactivated and otherwise as it was but for [updatedAt]. *)
Theorem deactivated_template_hidden templateId target userId now db :
  template_with_id templateId db = Some target ->
  PromptTemplates.ownerId target = Some userId ->
  exists hidden db',
    updatePromptTemplate (activation_request templateId false)
      (signed_in userId) now db
    = (inr {| success := true; data := Some hidden |}, db')
    /\ patched (activation_request templateId false) now target hidden
    /\ (forall r, In r (shown_templates userId None db') ->
                  PromptTemplates.id r <> templateId)
    /\ In hidden (shown_templates userId include_inactive db').
Proof.
  intros F O.
  set (i := activation_input templateId false).
  assert (S : UpdatePromptTemplate.schema (activation_request templateId false)
              = Some i) by reflexivity.
  exists (UpdatePromptTemplate.set i now target),
    (set_templates (patch_templates i now db) db).
  split.
  { apply (updatePromptTemplate_succeeds _ _ _ _ _ _ S F).
    apply own_template_accessible, O. }
  split; [apply (set_patched _ _ _ _ S)|]. split.
  - intros r I K. apply shown_templates_iff in I.
    destruct I as (I & _ & [A|A]); [discriminate|].
    simpl in I. apply in_map_iff in I. destruct I as (r0 & E & _). subst r.
    change (UpdatePromptTemplate.id i) with templateId in A, K.
    destruct (PromptTemplates.id r0 =? templateId) eqn:M; rewrite ?M in A, K.
    + simpl in A. discriminate.
    + apply Z.eqb_neq in M. exact (M K).
  - apply shown_templates_iff. split; [|split].
    + apply (patched_row_present i now db target F).
    + simpl. exact O.
    + left. reflexivity.
Qed.

(** alice deactivates her template 1. *)
Lemma deactivated_template_hidden_witness :
  exists hidden db',
    updatePromptTemplate (activation_request 1 false) (signed_in "alice") 9000
      Sample.db
    = (inr {| success := true; data := Some hidden |}, db')
    /\ patched (activation_request 1 false) 9000
         (Sample.lesson 1 (Some "alice") true) hidden
    /\ (forall r, In r (shown_templates "alice" None db') ->
                  PromptTemplates.id r <> 1)
    /\ In hidden (shown_templates "alice" include_inactive db').
Proof.
  apply (deactivated_template_hidden 1 (Sample.lesson 1 (Some "alice") true)
           "alice" 9000 Sample.db); reflexivity.
Defined.

(** X12.  A template that a signed-in caller creates is theirs alone: the
    creation returns the new row; the caller's listing with
    [includeInactive] shows it; their default listing shows it exactly when
    it was not created inactive; and no listing of any other user shows
    it. *)
Theorem created_template_listed raw userId now db env db' :
  createPromptTemplate raw (signed_in userId) now db = (inr env, db') ->
  exists r,
    data env = Some r
    /\ In r (shown_templates userId include_inactive db')
    /\ (In r (shown_templates userId None db')
        <-> CreatePromptTemplate.raw_isActive raw <> Some false)
    /\ forall other options,
         other <> userId -> ~ In r (shown_templates other options db').
Proof.
  destruct (CreatePromptTemplate.schema raw) as [i|] eqn:S.
  2:{ unfold createPromptTemplate, defineAction. rewrite S. discriminate. }
  rewrite (createPromptTemplate_run _ _ _ _ _ S). cbv zeta.
  intros E; inversion E; subst; clear E.
  destruct (CreatePromptTemplate_schema_some _ _ S) as (_ & _ & _ & _ & _ & _ & A).
  set (r := new_template userId i now db).
  assert (I : In r (rows (templates db) ++ [r])) by (apply in_or_app; simpl; auto).
  exists r. split; [reflexivity|]. split; [|split].
  - apply shown_templates_iff. simpl. auto.
  - rewrite shown_templates_iff. simpl. rewrite <- A. split.
    + intros (_ & _ & [H|H]); [discriminate|].
      intros F. rewrite F in H. discriminate.
    + intros H. split; [exact I|]. split; [reflexivity|]. right.
      destruct (CreatePromptTemplate.isActive i) as [[|]|]; simpl; congruence.
  - intros other options N H. apply shown_templates_iff in H.
    destruct H as (_ & O & _). simpl in O. congruence.
Qed.

Definition template_request (active : option bool) : CreatePromptTemplate.raw :=
  {| CreatePromptTemplate.raw_title := Some "Exit ticket";
     CreatePromptTemplate.raw_description := None;
     CreatePromptTemplate.raw_template := Some "Write three questions on {topic}.";
     CreatePromptTemplate.raw_tags := None;
     CreatePromptTemplate.raw_isActive := active |}.

Definition exit_ticket : PromptTemplates.row :=
  {| PromptTemplates.id := 4;
     PromptTemplates.ownerId := Some "bob";
     PromptTemplates.title := "Exit ticket";
     PromptTemplates.description := None;
     PromptTemplates.template := "Write three questions on {topic}.";
     PromptTemplates.tags := None;
     PromptTemplates.isActive := true;
     PromptTemplates.createdAt := 4000;
     PromptTemplates.updatedAt := 4000 |}.

(** bob creates a template in the sample database. *)
Lemma created_template_listed_witness :
  exists r,
    Some exit_ticket = Some r
    /\ In r (shown_templates "bob" include_inactive
               (set_templates
                  {| rows := rows (templates Sample.db) ++ [exit_ticket];
                     seq := 4 |} Sample.db))
    /\ (In r (shown_templates "bob" None
                (set_templates
                   {| rows := rows (templates Sample.db) ++ [exit_ticket];
                      seq := 4 |} Sample.db))
        <-> @None bool <> Some false)
    /\ forall other options,
         other <> "bob" ->
         ~ In r (shown_templates other options
                   (set_templates
                      {| rows := rows (templates Sample.db) ++ [exit_ticket];
                         seq := 4 |} Sample.db)).
Proof.
  apply (created_template_listed (template_request None) "bob" 4000 Sample.db
           {| success := true; data := Some exit_ticket |}).
  reflexivity.
Defined.

(** ** Generated prompts: creation and listing *)

(** What [listGeneratedPrompts] shows a signed-in user. *)
Definition shown_prompts (userId : string) (raw : ListGeneratedPrompts.raw)
    (db : DB) : list GeneratedPrompts.row :=
  match outcome (listGeneratedPrompts raw (signed_in userId) 0) db with
  | inr env => items (data env)
  | inl _ => []
  end.

Lemma shown_prompts_eq userId raw db :
  shown_prompts userId raw db
  = prompts_of userId (ListGeneratedPrompts.templateId_of raw) db.
Proof.
  unfold shown_prompts, outcome. rewrite listGeneratedPrompts_run. reflexivity.
Qed.

Definition for_template (templateId : option Z) : ListGeneratedPrompts.raw :=
  Some {| ListGeneratedPrompts.templateId := templateId |}.

(** X13.  When [createGeneratedPrompt] succeeds for a signed-in caller, the
    template it names, if any, passed the accessibility check; exactly one
    row was appended to [GeneratedPrompts], the one returned, carrying the
    caller's id and the supplied [templateId] and [promptText]; the caller's
    listing shows it, unfiltered and filtered by that [templateId] alike;
    and the listings of every other user are what they were. *)
Theorem created_prompt_listed raw userId now db env db' :
  createGeneratedPrompt raw (signed_in userId) now db = (inr env, db') ->
  exists p,
    data env = Some p
    /\ rows (prompts db') = rows (prompts db) ++ [p]
    /\ GeneratedPrompts.userId p = Some userId
    /\ GeneratedPrompts.templateId p = CreateGeneratedPrompt.raw_templateId raw
    /\ CreateGeneratedPrompt.raw_promptText raw = Some (GeneratedPrompts.promptText p)
    /\ template_usable (CreateGeneratedPrompt.raw_templateId raw) userId db
    /\ In p (shown_prompts userId None db')
    /\ In p (shown_prompts userId
               (for_template (CreateGeneratedPrompt.raw_templateId raw)) db')
    /\ forall other filter,
         other <> userId ->
         shown_prompts other filter db' = shown_prompts other filter db.
Proof.
  destruct (CreateGeneratedPrompt.schema raw) as [i|] eqn:S.
  2:{ unfold createGeneratedPrompt, defineAction. rewrite S. discriminate. }
  rewrite (createGeneratedPrompt_run _ _ _ _ _ S).
  destruct (CreateGeneratedPrompt_schema_some _ _ S) as (Pt & _ & T & _ & _).
  intros E.
  assert (H : template_usable (CreateGeneratedPrompt.templateId i) userId db
              /\ env = {| success := true;
                          data := Some (new_prompt userId i now db) |}
              /\ db' = set_prompts
                         {| rows := rows (prompts db) ++ [new_prompt userId i now db];
                            seq := GeneratedPrompts.id (new_prompt userId i now db) |}
                         db).
  { revert E. unfold new_prompt.
    destruct (CreateGeneratedPrompt.templateId i) as [t|] eqn:Ti.
    - destruct (ensureTemplateAccessible t userId db) as [[e|r] d] eqn:G;
        [discriminate|].
      simpl. intros E; inversion E; subst; clear E.
      split; [apply (template_usable_of_check _ _ _ _ _ G) | auto].
    - simpl. intros E; inversion E; subst; clear E.
      split; [apply template_usable_none | auto]. }
  destruct H as (U & -> & ->).
  set (p := new_prompt userId i now db).
  assert (Own : prompt_of_user userId p = true).
  { unfold prompt_of_user, p; simpl. apply String.eqb_refl. }
  exists p. simpl. rewrite <- T.
  split; [reflexivity|]. split; [reflexivity|]. split; [reflexivity|].
  split; [reflexivity|]. split; [exact Pt|]. split; [exact U|].
  split; [|split].
  - rewrite shown_prompts_eq. unfold prompts_of; simpl.
    apply filter_In. split; [apply in_or_app; simpl; auto|].
    rewrite Own. reflexivity.
  - rewrite shown_prompts_eq. unfold prompts_of; simpl.
    apply filter_In. split; [apply in_or_app; simpl; auto|].
    rewrite Own. simpl. unfold prompt_of_template, p; simpl.
    destruct (CreateGeneratedPrompt.templateId i); [apply Z.eqb_refl | reflexivity].
  - intros other filter N. rewrite !shown_prompts_eq. unfold prompts_of; simpl.
    rewrite filter_app. simpl.
    replace (prompt_of_user other p) with false; [simpl; apply app_nil_r|].
    symmetry. unfold prompt_of_user, p; simpl. apply String.eqb_neq. congruence.
Qed.

(** bob generates a prompt from the shared template 2. *)
Lemma created_prompt_listed_witness :
  exists env db',
    createGeneratedPrompt (Sample.prompt_request (Some 2)) (signed_in "bob") 5000
      Sample.db
    = (inr env, db')
    /\ exists p,
         data env = Some p
         /\ rows (prompts db') = rows (prompts Sample.db) ++ [p]
         /\ GeneratedPrompts.userId p = Some "bob"
         /\ In p (shown_prompts "bob" (for_template (Some 2)) db').
Proof.
  eexists _, _. split; [reflexivity|].
  destruct (created_prompt_listed (Sample.prompt_request (Some 2)) "bob" 5000
              Sample.db _ _ eq_refl)
    as (p & D & R & U & _ & _ & _ & _ & I & _).
  exists p. auto.
Defined.

(** ** Favorites: removal and round trips *)

(** What [listFavoritePrompts] shows a signed-in user. *)
Definition shown_favorites (userId : string) (db : DB)
    : list UserPromptFavorites.row :=
  match outcome (listFavoritePrompts None (signed_in userId) 0) db with
  | inr env => items (data env)
  | inl _ => []
  end.

Lemma shown_favorites_eq userId db :
  shown_favorites userId db
  = filter (favorite_of_user userId) (rows (favorites db)).
Proof.
  unfold shown_favorites, outcome. rewrite listFavoritePrompts_run. reflexivity.
Qed.

Lemma filter_filter_implied {A : Type} (f g : A -> bool) (l : list A) :
  (forall a, f a = true -> g a = true) ->
  filter f (filter g l) = filter f l.
Proof.
  intros H. induction l as [|a l IH]; simpl; [reflexivity|].
  destruct (g a) eqn:G; simpl.
  - rewrite IH. reflexivity.
  - destruct (f a) eqn:F; [|exact IH].
    rewrite (H a F) in G. discriminate.
Qed.

Lemma removeFavoritePrompt_final promptId userId now db :
  final (removeFavoritePrompt (unfavorite_request promptId) (signed_in userId) now) db
  = set_favorites
      {| rows := filter (fun f => negb (is_favorite userId promptId f))
                   (rows (favorites db));
         seq := seq (favorites db) |} db.
Proof.
  unfold final. rewrite removeFavoritePrompt_run. cbv zeta.
  destruct (_ =? 0); reflexivity.
Qed.

(** X14.  [removeFavoritePrompt] touches the caller's favorites of the one
    prompt only, whether it succeeds or fails: the favorites of every other
    (user, prompt) pair, the favorites list of every other user, and the
    other three tables are what they were. *)
Theorem removeFavoritePrompt_spares_others promptId userId now db :
  let db' :=
    final (removeFavoritePrompt (unfavorite_request promptId)
             (signed_in userId) now) db in
  (forall other p,
      other <> userId \/ p <> promptId ->
      favorites_of other p db' = favorites_of other p db)
  /\ (forall other, other <> userId ->
                    shown_favorites other db' = shown_favorites other db)
  /\ templates db' = templates db
  /\ prompts db' = prompts db
  /\ jobs db' = jobs db.
Proof.
  intros db'. unfold db'. rewrite removeFavoritePrompt_final.
  split; [|split; [|auto]].
  - intros other p N. unfold favorites_of; simpl.
    apply filter_filter_implied. intros f F.
    unfold is_favorite in *. apply andb_true_iff in F. destruct F as [P U].
    apply Z.eqb_eq in P. apply String.eqb_eq in U.
    apply negb_true_iff, andb_false_iff.
    destruct N as [N|N]; [right; apply String.eqb_neq | left; apply Z.eqb_neq];
      congruence.
  - intros other N. rewrite !shown_favorites_eq. simpl.
    apply filter_filter_implied. intros f F.
    unfold favorite_of_user in F. apply String.eqb_eq in F.
    apply negb_true_iff. unfold is_favorite. apply andb_false_iff. right.
    apply String.eqb_neq. congruence.
Qed.

(** X15.  Starring and unstarring undo each other: when the caller owns the
    prompt and has no favorite of it yet, [addFavoritePrompt] followed by
    [removeFavoritePrompt] both succeed and the rows of all four tables are
    again what they were before the two calls. *)
Theorem favorite_then_unfavorite userId promptId p now1 now2 db :
  In p (rows (prompts db)) ->
  GeneratedPrompts.id p = promptId ->
  GeneratedPrompts.userId p = Some userId ->
  favorites_of userId promptId db = [] ->
  exists f db1 db2,
    addFavoritePrompt (favorite_request promptId) (signed_in userId) now1 db
    = (inr {| success := true; data := Some f |}, db1)
    /\ removeFavoritePrompt (unfavorite_request promptId) (signed_in userId) now2 db1
       = (inr {| RemoveFavoritePrompt.ack_success := true |}, db2)
    /\ rows (favorites db2) = rows (favorites db)
    /\ templates db2 = templates db
    /\ prompts db2 = prompts db
    /\ jobs db2 = jobs db.
Proof.
  intros I K U N.
  destruct (own_prompt_found _ _ _ _ I K U) as [q Q].
  set (f := new_favorite userId promptId now1 db).
  set (db1 := set_favorites {| rows := rows (favorites db) ++ [f];
                               seq := UserPromptFavorites.id f |} db).
  assert (F1 : favorites_of userId promptId db1 = [f]).
  { unfold favorites_of, db1; simpl. rewrite filter_app.
    unfold favorites_of in N. rewrite N. simpl.
    unfold f. rewrite new_favorite_is_favorite. reflexivity. }
  eexists f, db1, _. split; [|split].
  - rewrite addFavoritePrompt_run, Q, N. reflexivity.
  - rewrite removeFavoritePrompt_run, F1. reflexivity.
  - simpl. rewrite filter_app. simpl.
    unfold f at 1. rewrite new_favorite_is_favorite. simpl.
    rewrite app_nil_r. unfold favorites_of in N.
    rewrite (filter_none_id _ _ N). auto.
Qed.

(** alice stars and unstars her prompt 1. *)
Lemma favorite_then_unfavorite_witness :
  exists f db1 db2,
    addFavoritePrompt (favorite_request 1) (signed_in "alice") 6000 Sample.db
    = (inr {| success := true; data := Some f |}, db1)
    /\ removeFavoritePrompt (unfavorite_request 1) (signed_in "alice") 7000 db1
       = (inr {| RemoveFavoritePrompt.ack_success := true |}, db2)
    /\ rows (favorites db2) = rows (favorites Sample.db)
    /\ templates db2 = templates Sample.db
    /\ prompts db2 = prompts Sample.db
    /\ jobs db2 = jobs Sample.db.
Proof.
  apply (favorite_then_unfavorite "alice" 1
           (Sample.prompt 1 (Some "alice") (Some 1)) 6000 7000 Sample.db);
    [simpl; auto | reflexivity | reflexivity | reflexivity].
Defined.

(** ** Invariants of the references between tables *)

(** Every favorite points at a stored prompt of the same user. *)
Definition favorites_grounded (db : DB) : Prop :=
  forall f, In f (rows (favorites db)) ->
    exists p,
      In p (rows (prompts db))
      /\ GeneratedPrompts.id p = UserPromptFavorites.promptId f
      /\ GeneratedPrompts.userId p = Some (UserPromptFavorites.userId f).

Lemma transition_favorites_grounded userId now db db' :
  transition userId now db db' ->
  favorites_grounded db -> favorites_grounded db'.
Proof.
  intros T G. destruct T as [| | |i U Pn p|promptId p I K U N f| |]; try exact G.
  - intros f F. destruct (G f F) as (q & Iq & H).
    exists q. split; [simpl; apply in_or_app; auto | exact H].
  - intros f' F. simpl in F. apply in_app_or in F.
    destruct F as [F|[<-|[]]]; [apply G, F|].
    exists p. simpl. auto.
  - intros f F. simpl in F. apply filter_In in F. apply G, F.
Qed.

Lemma serve_favorites_grounded q context now db :
  favorites_grounded db -> favorites_grounded (serve q context now db).
Proof.
  intros G.
  destruct (serve_change q context now db) as [->|(userId & _ & T)]; [exact G|].
  exact (transition_favorites_grounded _ _ _ _ T G).
Qed.

(** X16.  The reference from a favorite to its prompt is kept by the
    actions themselves: if every favorite points at a stored prompt of the
    same user, this still holds after any request; so it holds in every
    database the API produces from the empty one. *)
Theorem favorites_stay_grounded :
  (forall q context now db,
      favorites_grounded db -> favorites_grounded (serve q context now db))
  /\ (forall db, reachable db -> favorites_grounded db).
Proof.
  split; [exact serve_favorites_grounded|].
  intros db R. induction R as [|q context now db R IH].
  - intros f [].
  - apply serve_favorites_grounded, IH.
Qed.

(** alice's starred prompt still exists after she stars another time. *)
Lemma favorites_stay_grounded_witness :
  favorites_grounded
    (serve (AddFavoritePromptReq (favorite_request 1)) (signed_in "alice") 6000
       starred_db).
Proof.
  destruct favorites_stay_grounded as (H & _). apply H.
  intros f [<-|[]]. exists (Sample.prompt 1 (Some "alice") (Some 1)).
  simpl. auto.
Defined.

Lemma favorites_of_shown userId promptId db :
  filter (fun f => UserPromptFavorites.promptId f =? promptId)
         (shown_favorites userId db)
  = favorites_of userId promptId db.
Proof.
  rewrite shown_favorites_eq. unfold favorites_of.
  induction (rows (favorites db)) as [|f l IH]; simpl; [reflexivity|].
  unfold favorite_of_user, is_favorite in *.
  destruct (UserPromptFavorites.userId f =? userId)%string; simpl;
    destruct (UserPromptFavorites.promptId f =? promptId); simpl;
    rewrite ?IH; reflexivity.
Qed.

Lemma NoDup_by_count (l : list UserPromptFavorites.row) :
  (forall p : Z,
      (List.length
         (filter (fun f => (UserPromptFavorites.promptId f =? p)%Z) l) <= 1)%nat) ->
  NoDup (map UserPromptFavorites.promptId l).
Proof.
  induction l as [|a l IH]; simpl; [constructor|].
  intros C. constructor.
  - intros I. apply in_map_iff in I. destruct I as (b & E & I).
    specialize (C (UserPromptFavorites.promptId a)).
    rewrite Z.eqb_refl in C. simpl in C.
    assert (In b (filter (fun f => UserPromptFavorites.promptId f
                                   =? UserPromptFavorites.promptId a) l)) as Ib.
    { apply filter_In. split; [exact I | apply Z.eqb_eq, E]. }
    destruct (filter _ l); [destruct Ib | simpl in C; lia].
  - apply IH. intros p. specialize (C p).
    destruct (UserPromptFavorites.promptId a =? p); simpl in C; lia.
Qed.

(** X17.  In every database the API produces from the empty one by
    successive requests, a user's favorites list never shows the same prompt
    twice. *)
Theorem favorites_list_without_repeats userId db :
  reachable db ->
  NoDup (map UserPromptFavorites.promptId (shown_favorites userId db)).
Proof.
  intros R. apply NoDup_by_count. intros p.
  rewrite favorites_of_shown. apply (reachable_favorites_unique db R).
Qed.

(** alice stars her first prompt twice in a row. *)
Lemma favorites_list_without_repeats_witness :
  NoDup
    (map UserPromptFavorites.promptId
       (shown_favorites "alice"
          (serve (AddFavoritePromptReq (favorite_request 1)) (signed_in "alice") 7
             (serve (AddFavoritePromptReq (favorite_request 1)) (signed_in "alice") 6
                (serve (CreateGeneratedPromptReq (Sample.prompt_request None))
                   (signed_in "alice") 5 empty_db))))).
Proof.
  apply favorites_list_without_repeats.
  repeat apply reachable_serve. apply reachable_empty.
Defined.

(** Every generated prompt and every job that names a template names one
    that exists and that the user of the row may access. *)
Definition references_usable (db : DB) : Prop :=
  (forall p userId,
      In p (rows (prompts db)) ->
      GeneratedPrompts.userId p = Some userId ->
      template_usable (GeneratedPrompts.templateId p) userId db)
  /\ (forall j userId,
        In j (rows (jobs db)) ->
        PromptJobs.userId j = Some userId ->
        template_usable (PromptJobs.templateId j) userId db).

Lemma find_app_some {A : Type} (f : A -> bool) (l m : list A) a :
  find f l = Some a -> find f (l ++ m) = Some a.
Proof.
  induction l as [|b l IH]; simpl; [discriminate|].
  destruct (f b); auto.
Qed.

Lemma find_patched i now (l : list PromptTemplates.row) t :
  find (fun r => PromptTemplates.id r =? t)
       (map (fun r => if PromptTemplates.id r =? UpdatePromptTemplate.id i
                      then UpdatePromptTemplate.set i now r else r) l)
  = option_map (fun r => if PromptTemplates.id r =? UpdatePromptTemplate.id i
                         then UpdatePromptTemplate.set i now r else r)
      (find (fun r => PromptTemplates.id r =? t) l).
Proof.
  induction l as [|a l IH]; simpl; [reflexivity|].
  replace (PromptTemplates.id
             (if PromptTemplates.id a =? UpdatePromptTemplate.id i
              then UpdatePromptTemplate.set i now a else a))
    with (PromptTemplates.id a)
    by (destruct (PromptTemplates.id a =? UpdatePromptTemplate.id i); reflexivity).
  destruct (PromptTemplates.id a =? t); [reflexivity | exact IH].
Qed.

Lemma owned_by_other_patched i now r userId :
  owned_by_other
    (if PromptTemplates.id r =? UpdatePromptTemplate.id i
     then UpdatePromptTemplate.set i now r else r) userId
  <-> owned_by_other r userId.
Proof.
  unfold owned_by_other.
  destruct (PromptTemplates.id r =? UpdatePromptTemplate.id i); reflexivity.
Qed.

(** The templates a request leaves still serve everything they served. *)
Lemma transition_template_usable userId now db db' t user :
  transition userId now db db' ->
  template_usable t user db -> template_usable t user db'.
Proof.
  intros T U. destruct T as [|i Ti Tb r|i target F O Ti| | | |]; try exact U.
  - intros k K. destruct (U k K) as (x & Fx & Ox). exists x.
    split; [|exact Ox]. unfold template_with_id; simpl.
    apply find_app_some, Fx.
  - intros k K. destruct (U k K) as (x & Fx & Ox).
    eexists. split.
    + unfold template_with_id, patch_templates; simpl.
      rewrite find_patched. unfold template_with_id in Fx. rewrite Fx.
      reflexivity.
    + rewrite owned_by_other_patched. exact Ox.
Qed.

Lemma transition_references_usable userId now db db' :
  transition userId now db db' ->
  references_usable db -> references_usable db'.
Proof.
  intros T [P J].
  assert (Keep : forall t user, template_usable t user db ->
                                template_usable t user db')
    by (intros t user; apply (transition_template_usable _ _ _ _ _ _ T)).
  split.
  - intros p user I U. apply Keep. revert I U.
    destruct T as [| | |i Ui Pn p'| | |]; try (apply P). simpl.
    intros I U. apply in_app_or in I. destruct I as [I|[<-|[]]]; [apply P; auto|].
    simpl in U. inversion U; subst. exact Ui.
  - intros j user I U. apply Keep. revert I U.
    destruct T as [| | | | | |i Ui j']; try (apply J). simpl.
    intros I U. apply in_app_or in I. destruct I as [I|[<-|[]]]; [apply J; auto|].
    simpl in U. inversion U; subst. exact Ui.
Qed.

(** X18.  The reference from a generated prompt or a job to its template is
    kept by the actions themselves: if every row that names a template names
    a stored one that passes the accessibility check for the row's user, this
    still holds after any request (templates are never deleted and never
    change owner); so it holds in every database the API produces from the
    empty one. *)
Theorem references_stay_usable :
  (forall q context now db,
      references_usable db -> references_usable (serve q context now db))
  /\ (forall db, reachable db -> references_usable db).
Proof.
  assert (Step : forall q context now db,
             references_usable db -> references_usable (serve q context now db)).
  { intros q context now db U.
    destruct (serve_change q context now db) as [->|(userId & _ & T)]; [exact U|].
    exact (transition_references_usable _ _ _ _ T U). }
  split; [exact Step|].
  intros db R. induction R as [|q context now db R IH].
  - split; intros ? ? [].
  - apply Step, IH.
Qed.

(** After alice retitles her template 1, her prompt still refers to a
    template she may access. *)
Lemma references_stay_usable_witness :
  references_usable
    (serve (UpdatePromptTemplateReq (retitle_request (Some 1) (Some "Warm-up")))
       (signed_in "alice") 9000
       (Sample.db_of [Sample.lesson 1 (Some "alice") true]
                     [Sample.prompt 1 (Some "alice") (Some 1)] [])).
Proof.
  destruct references_stay_usable as (H & _). apply H.
  split.
  - intros p userId [<-|[]] U t T. inversion U; inversion T; subst.
    exists (Sample.lesson 1 (Some "alice") true).
    split; [reflexivity | apply own_template_accessible; reflexivity].
  - intros j userId [].
Defined.

(** X19.  Access to a template is never lost: if the template named by a
    key passes the accessibility check for a user, it still does after any
    request by anyone, updates of that very template included. *)
Theorem template_access_is_kept q context now db templateId userId :
  template_usable (Some templateId) userId db ->
  template_usable (Some templateId) userId (serve q context now db).
Proof.
  intros U.
  destruct (serve_change q context now db) as [->|(caller & _ & T)]; [exact U|].
  exact (transition_template_usable _ _ _ _ _ _ T U).
Qed.

(** bob may still use the shared template 2 after alice has rewritten it. *)
Lemma template_access_is_kept_witness :
  template_usable (Some 2) "bob"
    (serve (UpdatePromptTemplateReq (retitle_request (Some 2) (Some "Intro")))
       (signed_in "alice") 9000 Sample.db).
Proof.
  apply template_access_is_kept.
  intros t T. inversion T; subst. exists (Sample.lesson 2 None true).
  split; [reflexivity | apply ownerless_template_accessible; reflexivity].
Defined.

(** ** From a template to a listed favorite *)

Lemma find_app_fresh {A : Type} (f : A -> bool) (l : list A) x :
  (forall a, In a l -> f a = false) -> f x = true ->
  find f (l ++ [x]) = Some x.
Proof.
  intros N X. induction l as [|a l IH]; simpl.
  - rewrite X. reflexivity.
  - rewrite (N a) by (simpl; auto). apply IH. intros b I. apply N. simpl; auto.
Qed.

Definition prompt_from_template (templateId : Z) (text : string)
    (input meta : option JsonRecord) : CreateGeneratedPrompt.raw :=
  {| CreateGeneratedPrompt.raw_templateId := Some templateId;
     CreateGeneratedPrompt.raw_input := input;
     CreateGeneratedPrompt.raw_promptText := Some text;
     CreateGeneratedPrompt.raw_meta := meta |}.

(** X20.  The whole path works for a signed-in user, from any database in
    which every favorite points at a stored prompt: creating a template from
    an input that parses, generating a prompt with non-empty text from that
    template, starring that prompt and listing the favorites succeed one
    after the other, and the list holds exactly one row for that prompt, the
    one the starring returned. *)
Theorem template_prompt_favorite_listed
    userId rawT text input meta now1 now2 now3 now4 db :
  favorites_grounded db ->
  CreatePromptTemplate.schema rawT <> None ->
  text <> "" ->
  exists T P F db1 db2 db3,
    createPromptTemplate rawT (signed_in userId) now1 db
    = (inr {| success := true; data := Some T |}, db1)
    /\ createGeneratedPrompt
         (prompt_from_template (PromptTemplates.id T) text input meta)
         (signed_in userId) now2 db1
       = (inr {| success := true; data := Some P |}, db2)
    /\ GeneratedPrompts.templateId P = Some (PromptTemplates.id T)
    /\ addFavoritePrompt (favorite_request (GeneratedPrompts.id P))
         (signed_in userId) now3 db2
       = (inr {| success := true; data := Some F |}, db3)
    /\ listFavoritePrompts None (signed_in userId) now4 db3
       = (inr {| success := true; data := listing (shown_favorites userId db3) |},
          db3)
    /\ filter (fun f => UserPromptFavorites.promptId f =? GeneratedPrompts.id P)
              (shown_favorites userId db3)
       = [F].
Proof.
  intros G St Tx.
  destruct (CreatePromptTemplate.schema rawT) as [iT|] eqn:ST; [clear St|congruence].
  set (T := new_template userId iT now1 db).
  set (db1 := set_templates {| rows := rows (templates db) ++ [T];
                               seq := PromptTemplates.id T |} db).
  set (iP := {| CreateGeneratedPrompt.templateId := Some (PromptTemplates.id T);
                CreateGeneratedPrompt.input_ := input;
                CreateGeneratedPrompt.promptText := text;
                CreateGeneratedPrompt.meta := meta |}).
  assert (SP : CreateGeneratedPrompt.schema
                 (prompt_from_template (PromptTemplates.id T) text input meta)
               = Some iP).
  { unfold iP. destruct text as [|a s]; [congruence | reflexivity]. }
  set (P := new_prompt userId iP now2 db1).
  set (db2 := set_prompts {| rows := rows (prompts db1) ++ [P];
                             seq := GeneratedPrompts.id P |} db1).
  set (F := new_favorite userId (GeneratedPrompts.id P) now3 db2).
  set (db3 := set_favorites {| rows := rows (favorites db2) ++ [F];
                               seq := UserPromptFavorites.id F |} db2).
  assert (Check : ensureTemplateAccessible (PromptTemplates.id T) userId db1
                  = (inr T, db1)).
  { apply ensureTemplateAccessible_returns.
    - unfold template_with_id, db1; simpl. apply find_app_fresh.
      + intros r I. apply Z.eqb_neq.
        pose proof (next_id_above PromptTemplates.id (templates db) r I). lia.
      + apply Z.eqb_refl.
    - apply own_template_accessible. reflexivity. }
  assert (None0 : favorites_of userId (GeneratedPrompts.id P) db = []).
  { apply filter_nil_iff. intros f I.
    unfold is_favorite. apply andb_false_iff. left. apply Z.eqb_neq. intros E.
    destruct (G f I) as (p & Ip & Kp & _).
    pose proof (next_id_above GeneratedPrompts.id (prompts db) p Ip) as Lt.
    rewrite Kp, E in Lt. simpl in Lt. lia. }
  assert (Own : exists q, find (is_own_prompt userId (GeneratedPrompts.id P))
                            (rows (prompts db2)) = Some q).
  { apply (own_prompt_found userId (GeneratedPrompts.id P) P db2);
      [simpl; apply in_or_app; simpl; auto | reflexivity | reflexivity]. }
  destruct Own as [q Q].
  exists T, P, F, db1, db2, db3.
  split; [apply (createPromptTemplate_run _ _ _ _ _ ST)|].
  split.
  { rewrite (createGeneratedPrompt_run _ _ _ _ _ SP). simpl.
    change (next_id PromptTemplates.id (templates db)) with (PromptTemplates.id T).
    fold db1. rewrite Check. reflexivity. }
  split; [reflexivity|].
  split.
  { rewrite addFavoritePrompt_run, Q.
    replace (favorites_of userId (GeneratedPrompts.id P) db2) with
      (@nil UserPromptFavorites.row) by (symmetry; exact None0).
    reflexivity. }
  split.
  { rewrite listFavoritePrompts_run, shown_favorites_eq. reflexivity. }
  rewrite favorites_of_shown. unfold favorites_of, db3; simpl.
  rewrite filter_app. unfold favorites_of in None0. simpl in None0.
  rewrite None0. simpl. unfold F at 1. rewrite new_favorite_is_favorite.
  reflexivity.
Qed.

(** bob goes the whole path in the sample database. *)
Lemma template_prompt_favorite_listed_witness :
  exists T P F db1 db2 db3,
    createPromptTemplate (template_request None) (signed_in "bob") 1 Sample.db
    = (inr {| success := true; data := Some T |}, db1)
    /\ createGeneratedPrompt
         (prompt_from_template (PromptTemplates.id T) "Three questions on rivers."
            None None)
         (signed_in "bob") 2 db1
       = (inr {| success := true; data := Some P |}, db2)
    /\ GeneratedPrompts.templateId P = Some (PromptTemplates.id T)
    /\ addFavoritePrompt (favorite_request (GeneratedPrompts.id P))
         (signed_in "bob") 3 db2
       = (inr {| success := true; data := Some F |}, db3)
    /\ listFavoritePrompts None (signed_in "bob") 4 db3
       = (inr {| success := true; data := listing (shown_favorites "bob" db3) |},
          db3)
    /\ filter (fun f => UserPromptFavorites.promptId f =? GeneratedPrompts.id P)
              (shown_favorites "bob" db3)
       = [F].
Proof.
  apply (template_prompt_favorite_listed "bob" (template_request None)
           "Three questions on rivers." None None 1 2 3 4 Sample.db).
  - intros f [].
  - discriminate.
  - discriminate.
Defined.

(** ** Which requests get the input error *)












(** ** Updating twice *)

Lemma set_set i now1 now2 r :
  UpdatePromptTemplate.set i now2 (UpdatePromptTemplate.set i now1 r)
  = UpdatePromptTemplate.set i now2 r.
Proof.
  unfold UpdatePromptTemplate.set; simpl.
  destruct (UpdatePromptTemplate.title i), (UpdatePromptTemplate.description i),
    (UpdatePromptTemplate.template i), (UpdatePromptTemplate.tags i),
    (UpdatePromptTemplate.isActive i); reflexivity.
Qed.

Lemma patch_templates_twice i now1 now2 db :
  patch_templates i now2 (set_templates (patch_templates i now1 db) db)
  = patch_templates i now2 db.
Proof.
  unfold patch_templates; simpl. f_equal. rewrite map_map. apply map_ext.
  intros r. destruct (PromptTemplates.id r =? UpdatePromptTemplate.id i) eqn:E.
  - simpl. rewrite E. apply set_set.
  - rewrite E. reflexivity.
Qed.

(** X22.  Repeating an update changes nothing but [updatedAt]: when
    [updatePromptTemplate] succeeds, the same request sent again succeeds
    too, and the database after both calls is the one a single call at the
    later time would have left. *)
Theorem updatePromptTemplate_repeated raw userId now1 now2 db env db1 :
  updatePromptTemplate raw (signed_in userId) now1 db = (inr env, db1) ->
  exists env2,
    updatePromptTemplate raw (signed_in userId) now2 db1
    = (inr env2, final (updatePromptTemplate raw (signed_in userId) now2) db).
Proof.
  destruct (UpdatePromptTemplate.schema raw) as [i|] eqn:S.
  2:{ unfold updatePromptTemplate, defineAction. rewrite S. discriminate. }
  destruct (ensureTemplateAccessible (UpdatePromptTemplate.id i) userId db)
    as [[e|target] d] eqn:G.
  { rewrite (updatePromptTemplate_run _ _ _ _ _ S), G. discriminate. }
  apply ensureTemplateAccessible_ok in G. destruct G as [F O].
  rewrite (updatePromptTemplate_succeeds _ _ _ _ _ _ S F O).
  intros E; inversion E; subst; clear E.
  unfold final. rewrite (updatePromptTemplate_succeeds _ _ _ _ _ _ S F O). simpl.
  assert (F1 : template_with_id (UpdatePromptTemplate.id i)
                 (set_templates (patch_templates i now1 db) db)
               = Some (UpdatePromptTemplate.set i now1 target)).
  { unfold template_with_id, patch_templates; simpl. rewrite find_patched.
    unfold template_with_id in F. rewrite F. simpl.
    apply find_some in F. destruct F as [_ K]. rewrite K. reflexivity. }
  assert (O1 : ~ owned_by_other (UpdatePromptTemplate.set i now1 target) userId).
  { intros (o & Eo & H). apply O. exists o. auto. }
  rewrite (updatePromptTemplate_succeeds _ _ _ _ _ _ S F1 O1).
  eexists. f_equal.
  unfold set_templates at 1; simpl. unfold set_templates.
  rewrite <- (patch_templates_twice i now1 now2 db). reflexivity.
Qed.

(** alice retitles her template twice. *)
Lemma updatePromptTemplate_repeated_witness :
  exists env2,
    updatePromptTemplate (retitle_request (Some 1) (Some "Warm-up"))
      (signed_in "alice") 9500
      (final (updatePromptTemplate (retitle_request (Some 1) (Some "Warm-up"))
                (signed_in "alice") 9000) Sample.db)
    = (inr env2,
       final (updatePromptTemplate (retitle_request (Some 1) (Some "Warm-up"))
                (signed_in "alice") 9500) Sample.db).
Proof.
  apply (updatePromptTemplate_repeated
           (retitle_request (Some 1) (Some "Warm-up")) "alice" 9000 9500
           Sample.db
           {| success := true;
              data := Some retitled |}).
  reflexivity.
Defined.
